(** * Paper-trading cycle engine of the Kalshi dashboard

    A shallow embedding of the trading core of [src/Dashboard.jsx]:
    the two strategy evaluators, the risk filter inside the main loop,
    the portfolio updater passed to [setPortfolio], and [resetStats].

    Numbers.  Market quotes, prices, contract counts, balances and P&L are
    JavaScript numbers that hold integer cents; they are embedded as [Z]
    (exact below 2^53, the range in which a double holds every integer).
    The fair-value estimate and the confidence derived from it are
    fractional and are embedded as exact rationals [Q]; the code only
    adds, divides by 100, takes a minimum and compares them.  The fee is
    the one place where binary64 rounding decides an integer result
    ([Math.ceil] of a product with [0.07]), so it is embedded on Rocq's
    primitive binary64 floats, which round as JavaScript does.

    Effects.  [Math.random] is an explicit argument (one draw per call of
    [evaluateValueStrategy]); the wall-clock string written into trades
    and positions is an explicit argument [now]; React state is one
    [Engine] record threaded through [tick].  [portfolioRef], the copy of
    the portfolio the risk filter reads, is kept next to the state in
    [Dashboard]: a firing of the interval callback ([fire]) reads it, the
    effect that follows a render ([render]) refreshes it.  The price
    history is a plain object keyed by ticker; reading it through a name
    inherited from [Object.prototype] is modelled, the throw as [None].
    The activity log and all rendering are left out. *)

From Stdlib Require Import ZArith QArith Qround Qminmax Lqa.
From Stdlib Require Import PrimFloat FloatOps SpecFloat.
From stdpp Require Import gmap strings list fin_maps pretty.

Local Open Scope Z_scope.

(* 0.07 has no exact binary64 value; the literal denotes the nearest double,
   as it does in JavaScript. *)
Local Set Warnings "-inexact-float".

(** ** Data model *)

Inductive Side := YES | NO.

Inductive Action := BUY.

(** [status] of a checked signal; the evaluators leave the field unset. *)
Inductive Status := APPROVED | REJECTED.

(** [activeStrategy]: the strings "value", "mm" and "both". *)
Inductive Strategy := Value | MM | Both.

Record Market := {
  m_ticker : string;
  m_title : string;
  m_yesBid : Z;
  m_yesAsk : Z;
  m_noBid : Z;
  m_noAsk : Z;
  m_mid : Z;
  m_spread : Z;
  m_volume : Z;
}.

Record Signal := {
  s_ticker : string;
  s_title : string;
  s_side : Side;
  s_action : Action;
  s_price : Z;
  s_count : Z;
  s_reason : string;
  s_confidence : Q;
  s_edge : Q;
  s_status : option Status;
  s_rejectReason : option string;
}.

Record Position := {
  p_side : Side;
  p_count : Z;
  p_avgPrice : Z;
  p_ticker : string;
  p_entryTime : string;
}.

Record ClosedTrade := {
  t_ticker : string;
  t_side : Side;
  t_entryPrice : Z;
  t_exitPrice : Z;
  t_count : Z;
  t_pnl : Z;
  t_time : string;
}.

Record Portfolio := {
  balance : Z;
  totalPnl : Z;
  positions : gmap string Position;
  closedTrades : list ClosedTrade;
  equityCurve : list Z;
  totalFees : Z;
}.

Record ValueParams := {
  threshold : Z;
  maxContracts : Z;
  minConfidence : Q;
}.

Record MMParams := {
  spread : Z;
  size : Z;
}.

Record RiskParams := {
  maxPositionPerMarket : Z;
  maxExposure : Z;
  maxDailyLoss : Z;
}.

#[global] Instance Side_eq_dec : EqDecision Side.
Proof. solve_decision. Defined.

#[global] Instance Status_eq_dec : EqDecision Status.
Proof. solve_decision. Defined.

#[global] Instance Strategy_eq_dec : EqDecision Strategy.
Proof. solve_decision. Defined.

(** ** JavaScript helpers *)

Definition sideString (s : Side) : string :=
  match s with YES => "YES" | NO => "NO" end.

(** [x < y] on rationals as a boolean. *)
Definition Qltb (x y : Q) : bool := negb (Qle_bool y x).

(** [x.toFixed(0)]: sign first, then the magnitude rounded half up. *)
Definition toFixed0 (x : Q) : string :=
  if Qltb x 0
  then "-" +:+ pretty (Qfloor (- x + (1 # 2))%Q)
  else pretty (Qfloor (x + (1 # 2))%Q).

(** [arr.slice(-n)]: the last [n] elements, the whole array when shorter. *)
Definition sliceLast {A} (n : nat) (l : list A) : list A :=
  drop (length l - n)%nat l.

(** [markets.find((m) => m.ticker === t)]. *)
Fixpoint findMarket (t : string) (ms : list Market) : option Market :=
  match ms with
  | [] => None
  | m :: ms' => if String.eqb (m_ticker m) t then Some m else findMarket t ms'
  end.

(** ** Strategy evaluation *)

(** Lines 86-110 of [evaluateValueStrategy], after [fair] has been drawn. *)
Definition valueSignals (market : Market) (params : ValueParams) (fair : Q)
  : list Signal :=
  let yesPart :=
    if Qle_bool (inject_Z (threshold params)) (fair - inject_Z (m_yesAsk market))
    then
      let conf := Qmin ((fair - inject_Z (m_yesAsk market)) / 100) 1 in
      if Qle_bool (minConfidence params) conf
      then [ {| s_ticker := m_ticker market; s_title := m_title market;
                s_side := YES; s_action := BUY;
                s_price := m_yesAsk market + 1;
                s_count := Z.min (maxContracts params) 3;
                s_reason := "YES undervalued: ask=" +:+ pretty (m_yesAsk market)
                            +:+ "¢, fair=" +:+ toFixed0 fair +:+ "¢";
                s_confidence := conf;
                s_edge := fair - inject_Z (m_yesAsk market);
                s_status := None; s_rejectReason := None |} ]
      else []
    else [] in
  let noFair := (100 - fair)%Q in
  let noAsk := 100 - m_yesBid market in
  let noPart :=
    if Qle_bool (inject_Z (threshold params)) (noFair - inject_Z noAsk)
    then
      let conf := Qmin ((noFair - inject_Z noAsk) / 100) 1 in
      if Qle_bool (minConfidence params) conf
      then [ {| s_ticker := m_ticker market; s_title := m_title market;
                s_side := NO; s_action := BUY;
                s_price := noAsk + 1;
                s_count := Z.min (maxContracts params) 3;
                s_reason := "NO undervalued: ask=" +:+ pretty noAsk
                            +:+ "¢, fair=" +:+ toFixed0 noFair +:+ "¢";
                s_confidence := conf;
                s_edge := noFair - inject_Z noAsk;
                s_status := None; s_rejectReason := None |} ]
      else []
    else [] in
  yesPart ++ noPart.

(** [evaluateValueStrategy(market, params)]; [rnd] is the value returned by
    its one call of [Math.random()]. *)
Definition evaluateValueStrategy (market : Market) (params : ValueParams)
  (rnd : Q) : list Signal :=
  valueSignals market params (inject_Z (m_mid market) + (rnd - (1 # 2)) * 15)%Q.

Definition evaluateMMStrategy (market : Market) (params : MMParams)
  : list Signal :=
  let half := spread params / 2 in
  [ {| s_ticker := m_ticker market; s_title := m_title market;
       s_side := YES; s_action := BUY;
       s_price := Z.max 1 (m_mid market - half); s_count := size params;
       s_reason := "MM yes bid: mid=" +:+ pretty (m_mid market) +:+ "¢";
       s_confidence := 1 # 2; s_edge := inject_Z half;
       s_status := None; s_rejectReason := None |};
    {| s_ticker := m_ticker market; s_title := m_title market;
       s_side := NO; s_action := BUY;
       s_price := Z.max 1 (100 - m_mid market - half); s_count := size params;
       s_reason := "MM no bid: mid=" +:+ pretty (m_mid market) +:+ "¢";
       s_confidence := 1 # 2; s_edge := inject_Z half;
       s_status := None; s_rejectReason := None |} ].

(** ** Crossing fee on binary64 floats *)

(** The double nearest to an integer (exact up to 2^53). *)
Definition Z2F (z : Z) : float := SF2Prim (binary_normalize prec emax z 0 false).

(** [Math.ceil] of a finite double, as an integer.  Not-a-number and the
    infinities cannot arise from integer cents in the modelled range and
    are mapped to 0. *)
Definition ceilF (x : float) : Z :=
  match Prim2SF x with
  | S754_finite s m e =>
      let n := if s then Z.neg m else Z.pos m in
      match e with
      | Z.neg k => - ((- n) / 2 ^ Z.pos k)
      | _ => n * 2 ^ e
      end
  | _ => 0
  end.

(** [Math.ceil(0.07 * count * (price / 100) * (1 - price / 100) * 100)],
    evaluated left to right as JavaScript does. *)
Definition fee (count price : Z) : Z :=
  ceilF (0.07 * Z2F count * (Z2F price / 100)
         * (1 - Z2F price / 100) * 100)%float.

(** ** Risk filter *)

(** The key [`${ticker}-${side}`] of the positions object. *)
Definition posKey (ticker : string) (side : Side) : string :=
  ticker +:+ "-" +:+ sideString side.

Definition dailyLoss (currentPortfolio : Portfolio) : Z :=
  if totalPnl currentPortfolio <? 0 then Z.abs (totalPnl currentPortfolio) else 0.

(** [{ ...sig, status: "REJECTED", rejectReason }]. *)
Definition rejectWith (sig : Signal) (why : string) : Signal :=
  {| s_ticker := s_ticker sig; s_title := s_title sig; s_side := s_side sig;
     s_action := s_action sig; s_price := s_price sig; s_count := s_count sig;
     s_reason := s_reason sig; s_confidence := s_confidence sig;
     s_edge := s_edge sig;
     s_status := Some REJECTED; s_rejectReason := Some why |}.

(** [{ ...sig, status: "APPROVED" }]. *)
Definition approve (sig : Signal) : Signal :=
  {| s_ticker := s_ticker sig; s_title := s_title sig; s_side := s_side sig;
     s_action := s_action sig; s_price := s_price sig; s_count := s_count sig;
     s_reason := s_reason sig; s_confidence := s_confidence sig;
     s_edge := s_edge sig;
     s_status := Some APPROVED; s_rejectReason := s_rejectReason sig |}.

(** [existingPos && existingPos.count >= maxPositionPerMarket]. *)
Definition atPositionLimit (riskParams : RiskParams) (existingPos : option Position)
  : bool :=
  match existingPos with
  | Some pos => maxPositionPerMarket riskParams <=? p_count pos
  | None => false
  end.

(** The callback of [newSignals.map] in the main loop, without its two
    counters. *)
Definition checkSignal (activeStrategy : Strategy) (valueParams : ValueParams)
  (riskParams : RiskParams) (currentPortfolio : Portfolio) (sig : Signal)
  : Signal :=
  let cost := s_price sig * s_count sig in
  if maxExposure riskParams <? cost then rejectWith sig "Exposure limit"
  else if Qltb (s_confidence sig) (minConfidence valueParams)
          && negb (bool_decide (activeStrategy = MM))
  then rejectWith sig "Low confidence"
  else
    let existingPos := positions currentPortfolio !! posKey (s_ticker sig) (s_side sig) in
    if atPositionLimit riskParams existingPos then rejectWith sig "Position limit"
    else if maxDailyLoss riskParams <=? dailyLoss currentPortfolio
    then rejectWith sig "Daily loss limit"
    else approve sig.

Definition isApproved (s : Signal) : bool :=
  bool_decide (s_status s = Some APPROVED).

(** [checkedSignals] together with the counters [placed] and [rejected]
    that the callback increments. *)
Fixpoint riskFilter (activeStrategy : Strategy) (valueParams : ValueParams)
  (riskParams : RiskParams) (currentPortfolio : Portfolio)
  (newSignals : list Signal) (placed rejected : Z) : list Signal * Z * Z :=
  match newSignals with
  | [] => ([], placed, rejected)
  | sig :: rest =>
      let checked := checkSignal activeStrategy valueParams riskParams currentPortfolio sig in
      let '(out, placed', rejected') :=
        if isApproved checked
        then riskFilter activeStrategy valueParams riskParams currentPortfolio rest (placed + 1) rejected
        else riskFilter activeStrategy valueParams riskParams currentPortfolio rest placed (rejected + 1) in
      (checked :: out, placed', rejected')
  end.

(** ** Portfolio ledger *)

(** [currentMarkets.find(...)?.mid || sig.price]: a missing market and a
    zero mid both fall through to the signal's price. *)
Definition midOrPrice (currentMarkets : list Market) (sig : Signal) : Z :=
  match findMarket (s_ticker sig) currentMarkets with
  | Some m => if m_mid m =? 0 then s_price sig else m_mid m
  | None => s_price sig
  end.

Definition exitPriceOf (currentMarkets : list Market) (sig : Signal) : Z :=
  match s_side sig with
  | YES => midOrPrice currentMarkets sig
  | NO => 100 - midOrPrice currentMarkets sig
  end.

(** One iteration of [approved.forEach]: [prev] is the portfolio the
    updater received, [next] the copy being mutated. *)
Definition applySignal (currentMarkets : list Market) (now : string)
  (prev next : Portfolio) (sig : Signal) : Portfolio :=
  let fee := fee (s_count sig) (s_price sig) in
  let key := posKey (s_ticker sig) (s_side sig) in
  match positions next !! key with
  | Some existing =>
      let exitPrice := exitPriceOf currentMarkets sig in
      let pnl := (exitPrice - p_avgPrice existing) * p_count existing in
      {| balance := balance next - fee + pnl;
         totalPnl := totalPnl next + pnl;
         positions := delete key (positions next);
         closedTrades :=
           sliceLast 50 (closedTrades prev)
           ++ [ {| t_ticker := s_ticker sig; t_side := s_side sig;
                   t_entryPrice := p_avgPrice existing; t_exitPrice := exitPrice;
                   t_count := p_count existing; t_pnl := pnl; t_time := now |} ];
         equityCurve := equityCurve next;
         totalFees := totalFees next + fee |}
  | None =>
      {| balance := balance next - fee - s_price sig * s_count sig;
         totalPnl := totalPnl next;
         positions :=
           <[ key := {| p_side := s_side sig; p_count := s_count sig;
                        p_avgPrice := s_price sig; p_ticker := s_ticker sig;
                        p_entryTime := now |} ]> (positions next);
         closedTrades := closedTrades next;
         equityCurve := equityCurve next;
         totalFees := totalFees next + fee |}
  end.

(** Mark-to-market of one open position; nothing when its market is gone. *)
Definition unrealizedOf (currentMarkets : list Market) (pos : Position) : Z :=
  match findMarket (p_ticker pos) currentMarkets with
  | Some mkt =>
      let cp := match p_side pos with YES => m_mid mkt | NO => 100 - m_mid mkt end in
      (cp - p_avgPrice pos) * p_count pos
  | None => 0
  end.

(** [Object.values(next.positions).forEach] adding into [unrealized]; the
    sum does not depend on the order of the keys. *)
Definition unrealizedPnl (currentMarkets : list Market)
  (ps : gmap string Position) : Z :=
  map_fold (fun _ pos acc => acc + unrealizedOf currentMarkets pos) 0 ps.

(** The updater given to [setPortfolio]. *)
Definition updatePortfolio (currentMarkets : list Market)
  (checkedSignals : list Signal) (now : string) (prev : Portfolio) : Portfolio :=
  let approved := List.filter isApproved checkedSignals in
  let next := foldl (applySignal currentMarkets now prev) prev approved in
  let unrealized := unrealizedPnl currentMarkets (positions next) in
  {| balance := balance next; totalPnl := totalPnl next;
     positions := positions next; closedTrades := closedTrades next;
     equityCurve := sliceLast 100 (equityCurve prev) ++ [totalPnl next + unrealized];
     totalFees := totalFees next |}.

(** ** Engine state and one tick of the main loop *)

Record Config := {
  activeStrategy : Strategy;
  valueParams : ValueParams;
  mmParams : MMParams;
  riskParams : RiskParams;
}.

Record Engine := {
  portfolio : Portfolio;
  signals : list Signal;
  cycleCount : Z;
  totalSignals : Z;
  ordersPlaced : Z;
  ordersRejected : Z;
}.

Definition initialPortfolio : Portfolio :=
  {| balance := 10000; totalPnl := 0; positions := ∅; closedTrades := [];
     equityCurve := [0]; totalFees := 0 |}.

Definition initialEngine : Engine :=
  {| portfolio := initialPortfolio; signals := []; cycleCount := 0;
     totalSignals := 0; ordersPlaced := 0; ordersRejected := 0 |}.

Definition defaultConfig : Config :=
  {| activeStrategy := Value;
     valueParams := {| threshold := 8; maxContracts := 5; minConfidence := 0.3 |};
     mmParams := {| spread := 6; size := 2 |};
     riskParams := {| maxPositionPerMarket := 10; maxExposure := 5000;
                      maxDailyLoss := 1000 |} |}.

Definition usesValue (s : Strategy) : bool :=
  match s with Value | Both => true | MM => false end.

Definition usesMM (s : Strategy) : bool :=
  match s with MM | Both => true | Value => false end.

(** [currentMarkets.forEach] filling [newSignals]; [rnd k] is the [k]-th
    value [Math.random()] returns during this tick. *)
Fixpoint generateSignals (cfg : Config) (currentMarkets : list Market)
  (rnd : nat -> Q) (k : nat) : list Signal :=
  match currentMarkets with
  | [] => []
  | m :: rest =>
      (if usesValue (activeStrategy cfg)
       then evaluateValueStrategy m (valueParams cfg) (rnd k) else [])
      ++ (if usesMM (activeStrategy cfg)
          then evaluateMMStrategy m (mmParams cfg) else [])
      ++ generateSignals cfg rest rnd
           (if usesValue (activeStrategy cfg) then S k else k)
  end.

(** One firing of the interval callback on the snapshot [currentMarkets],
    when a render has come between it and the firing before: then
    [portfolioRef.current], which the risk filter reads, and the [prev] the
    portfolio updater receives are one portfolio.  [fire] below is the
    firing with the two kept apart. *)
Definition tick (cfg : Config) (currentMarkets : list Market) (rnd : nat -> Q)
  (now : string) (e : Engine) : Engine :=
  let newSignals := generateSignals cfg currentMarkets rnd 0 in
  let '(checkedSignals, placed, rejected) :=
    riskFilter (activeStrategy cfg) (valueParams cfg) (riskParams cfg)
      (portfolio e) newSignals 0 0 in
  {| portfolio := updatePortfolio currentMarkets checkedSignals now (portfolio e);
     signals := checkedSignals;
     cycleCount := cycleCount e + 1;
     totalSignals := totalSignals e + Z.of_nat (length checkedSignals);
     ordersPlaced := ordersPlaced e + placed;
     ordersRejected := ordersRejected e + rejected |}.

Definition resetStats (e : Engine) : Engine :=
  {| portfolio :=
       {| balance := 10000; totalPnl := 0; positions := ∅; closedTrades := [];
          equityCurve := [0]; totalFees := 0 |};
     signals := []; cycleCount := 0; totalSignals := 0;
     ordersPlaced := 0; ordersRejected := 0 |}.

(** The engine states the dashboard can be in: the initial one, and any
    state after a tick or a reset, under any configuration and snapshot. *)
Inductive reachable : Engine -> Prop :=
  | reach_init : reachable initialEngine
  | reach_tick cfg ms rnd now e :
      reachable e -> reachable (tick cfg ms rnd now e)
  | reach_reset e : reachable e -> reachable (resetStats e).

(** ** Fixtures *)

Definition T1 : Market :=
  {| m_ticker := "T1"; m_title := "T1"; m_yesBid := 40; m_yesAsk := 50;
     m_noBid := 50; m_noAsk := 60; m_mid := 45; m_spread := 10; m_volume := 0 |}.

Definition M50 : Market :=
  {| m_ticker := "RAIN-SIM"; m_title := "LA Rain > 0.5in This Week";
     m_yesBid := 47; m_yesAsk := 53; m_noBid := 47; m_noAsk := 53;
     m_mid := 50; m_spread := 6; m_volume := 1200 |}.

Definition mmConfig : Config :=
  {| activeStrategy := MM; valueParams := valueParams defaultConfig;
     mmParams := mmParams defaultConfig; riskParams := riskParams defaultConfig |}.

Definition noRandom : nat -> Q := fun _ => 1 # 2.

Definition pickyValue : ValueParams :=
  {| threshold := 8; maxContracts := 5; minConfidence := 0.6 |}.

Definition tightRisk : RiskParams :=
  {| maxPositionPerMarket := 10; maxExposure := 500; maxDailyLoss := 1000 |}.

(** The NO quote of the market maker on [T1] with size 10: 10 contracts at
    52 cents, confidence 1/2. *)
Definition bigNoQuote : Signal :=
  {| s_ticker := "T1"; s_title := "T1"; s_side := NO; s_action := BUY;
     s_price := 52; s_count := 10; s_reason := "MM no bid: mid=45¢";
     s_confidence := 1 # 2; s_edge := inject_Z 3;
     s_status := None; s_rejectReason := None |}.

(** The YES quote of the market maker on [M50] with the default parameters. *)
Definition yesQuote : Signal :=
  {| s_ticker := "RAIN-SIM"; s_title := "LA Rain > 0.5in This Week";
     s_side := YES; s_action := BUY; s_price := 47; s_count := 2;
     s_reason := "MM yes bid: mid=50¢";
     s_confidence := 1 # 2; s_edge := inject_Z 3;
     s_status := None; s_rejectReason := None |}.

Definition lossyPortfolio : Portfolio :=
  {| balance := 8700; totalPnl := -1000; positions := ∅; closedTrades := [];
     equityCurve := [0; -1000]; totalFees := 300 |}.

Definition pickyBoth : Config :=
  {| activeStrategy := Both; valueParams := pickyValue;
     mmParams := mmParams defaultConfig; riskParams := riskParams defaultConfig |}.

(** The draw that makes [fair] 60 on a market with mid 45.  [Math.random]
    stays below 1, so the dashboard itself never sees it; the scenario
    forces the estimate. *)
Definition forcedDraw : nat -> Q := fun _ => 3 # 2.

(** The scenario of the repeat signal: 3 YES contracts bought at 40 cents,
    the market then at mid 55, and a second approved YES signal of another
    size and price. *)
Definition openYes : Signal :=
  {| s_ticker := "T1"; s_title := "T1"; s_side := YES; s_action := BUY;
     s_price := 40; s_count := 3; s_reason := "MM yes bid: mid=45¢";
     s_confidence := 1 # 2; s_edge := inject_Z 5;
     s_status := Some APPROVED; s_rejectReason := None |}.




(** The market maker's two quotes on [M50], approved. *)
Definition yesFill : Signal := approve yesQuote.

Definition noFill : Signal :=
  {| s_ticker := "RAIN-SIM"; s_title := "LA Rain > 0.5in This Week";
     s_side := NO; s_action := BUY; s_price := 47; s_count := 2;
     s_reason := "MM no bid: mid=50¢";
     s_confidence := 1 # 2; s_edge := inject_Z 3;
     s_status := Some APPROVED; s_rejectReason := None |}.

Definition holdingNo : Portfolio :=
  updatePortfolio [M50] [noFill] "12:00:00" initialPortfolio.



(** A market at mid 53 and the market maker quoting 4 contracts on it. *)
Definition M53 : Market :=
  {| m_ticker := "CPI-SIM"; m_title := "January CPI > 3.0%";
     m_yesBid := 50; m_yesAsk := 56; m_noBid := 44; m_noAsk := 50;
     m_mid := 53; m_spread := 6; m_volume := 900 |}.

Definition mmSize4 : Config :=
  {| activeStrategy := MM; valueParams := valueParams defaultConfig;
     mmParams := {| spread := 6; size := 4 |};
     riskParams := riskParams defaultConfig |}.

(** ** Auxiliary notions used in the statements *)

(** The three checks that run before the loss limit all pass. *)
Definition passesEarlierChecks (strat : Strategy) (vp : ValueParams)
  (rp : RiskParams) (pf : Portfolio) (sig : Signal) : bool :=
  negb (maxExposure rp <? s_price sig * s_count sig)
  && negb (Qltb (s_confidence sig) (minConfidence vp)
           && negb (bool_decide (strat = MM)))
  && negb (atPositionLimit rp (positions pf !! posKey (s_ticker sig) (s_side sig))).

(** The formula in exact rational arithmetic. *)
Definition exactFee (count price : Z) : Z :=
  Qceiling ((7 # 100) * inject_Z count * (inject_Z price / 100)
            * (1 - inject_Z price / 100) * 100)%Q.

Definition sumFees (sigs : list Signal) : Z :=
  foldr (fun s acc => fee (s_count s) (s_price s) + acc) 0 sigs.

(** ** Market feeds *)

(** [a || b] on numbers: zero is falsy. *)
Definition orZ (a b : Z) : Z := if a =? 0 then b else a.

(** [a || b] on an optional string: a missing and an empty string are falsy. *)
Definition orString (a : option string) (b : string) : string :=
  match a with
  | Some s => if String.eqb s "" then b else s
  | None => b
  end.

(** [Math.round]: the nearest integer, halves upwards. *)
Definition roundQ (x : Q) : Z := Qfloor (x + (1 # 2))%Q.

(** A market as the backend sends it; every field but [ticker] may be
    missing.  [status], [open_interest] and [expiration_time] are copied
    through for display only and are not part of [Market]. *)
Record RawMarket := {
  r_ticker : string;
  r_title : option string;
  r_subtitle : option string;
  r_last_price : option Z;
  r_volume : option Z;
}.

(** One entry of [orderbooks]: resting bids as [price, quantity] pairs, best
    first, on the YES and on the NO side. *)
Record Orderbook := {
  ob_yes : option (list (Z * Z));
  ob_no : option (list (Z * Z));
}.

(** [yesBids.length > 0 ? yesBids[0][0] : 0]. *)
Definition bestBid (bids : list (Z * Z)) : Z :=
  match bids with
  | (price, _) :: _ => price
  | [] => 0
  end.

(** The callback of [rawMarkets.map] in [parseMarkets]. *)
Definition parseMarket (orderbooks : gmap string Orderbook) (m : RawMarket)
  : Market :=
  let ob := default {| ob_yes := None; ob_no := None |} (orderbooks !! r_ticker m) in
  let yesBids := default [] (ob_yes ob) in
  let noBids := default [] (ob_no ob) in
  let bestYesBid := bestBid yesBids in
  let bestYesAsk := match noBids with [] => 0 | _ => 100 - bestBid noBids end in
  let mid :=
    if negb (bestYesBid =? 0) && negb (bestYesAsk =? 0)
    then roundQ (inject_Z (bestYesBid + bestYesAsk) / 2)
    else orZ (default 0 (r_last_price m)) 50 in
  let spread := bestYesAsk - bestYesBid in
  {| m_ticker := r_ticker m;
     m_title := orString (r_title m) (orString (r_subtitle m) (r_ticker m));
     m_yesBid := orZ bestYesBid (mid - 2);
     m_yesAsk := orZ bestYesAsk (mid + 2);
     m_noBid := 100 - orZ bestYesAsk (mid + 2);
     m_noAsk := 100 - orZ bestYesBid (mid - 2);
     m_mid := mid;
     m_spread := Z.max 0 spread;
     m_volume := orZ (default 0 (r_volume m)) 0 |}.

Definition parseMarkets (rawMarkets : list RawMarket)
  (orderbooks : gmap string Orderbook) : list Market :=
  map (parseMarket orderbooks) rawMarkets.

Definition simTypes : list string :=
  ["HIGHTEMP"; "LOWTEMP"; "RAIN"; "SP500"; "CPI"; "NFPAY"; "BTCUSD"; "FEDRATE"].

Definition simTitles : list string :=
  ["NYC High Temp > 45°F Tomorrow"; "Chicago Low Temp < 20°F Tomorrow";
   "LA Rain > 0.5in This Week"; "S&P 500 Close > 6000 Friday";
   "January CPI > 3.0%"; "Nonfarm Payrolls > 200K";
   "Bitcoin > $100K by March"; "Fed Holds Rates in March"].

(** The callback of [Array.from] in [generateSimMarkets] for index [i];
    [r1], [r2], [r3] are its three draws of [Math.random()], in order. *)
Definition simMarket (ty title : string) (r1 r2 r3 : Q) : Market :=
  let mid := (20 + r1 * 60)%Q in
  let spread := (2 + r2 * 8)%Q in
  let yesBid := Z.max 1 (roundQ (mid - spread / 2)) in
  let noBid := Z.max 1 (roundQ (100 - mid - spread / 2)) in
  {| m_ticker := ty +:+ "-SIM"; m_title := title; m_yesBid := yesBid;
     m_yesAsk := Z.min 99 (yesBid + roundQ spread);
     m_noBid := noBid; m_noAsk := Z.min 99 (noBid + roundQ spread);
     m_mid := roundQ mid; m_spread := roundQ spread;
     m_volume := roundQ (500 + r3 * 50000) |}.

(** [generateSimMarkets()] with its default count of 8, the only way the
    dashboard calls it; [rnd k] is the [k]-th draw. *)
Definition generateSimMarkets (rnd : nat -> Q) : list Market :=
  imap (fun i '(ty, title) =>
          simMarket ty title (rnd (3 * i)%nat) (rnd (3 * i + 1)%nat)
            (rnd (3 * i + 2)%nat))
       (zip simTypes simTitles).

(** The callback of [markets.map] in [driftSimMarkets]. *)
Definition driftMarket (m : Market) (r1 r2 r3 : Q) : Market :=
  let drift := ((r1 - (1 # 2)) * 4)%Q in
  let newMid := Qmax 5 (Qmin 95 (inject_Z (m_mid m) + drift)) in
  let s := Z.max 2 (roundQ (inject_Z (m_spread m) + (r2 - (1 # 2)) * 2)) in
  {| m_ticker := m_ticker m; m_title := m_title m;
     m_yesBid := Z.max 1 (roundQ (newMid - inject_Z s / 2));
     m_yesAsk := Z.min 99 (roundQ (newMid + inject_Z s / 2));
     m_noBid := Z.max 1 (roundQ (100 - newMid - inject_Z s / 2));
     m_noAsk := Z.min 99 (roundQ (100 - newMid + inject_Z s / 2));
     m_mid := roundQ newMid; m_spread := s;
     m_volume := m_volume m + roundQ (r3 * 100) |}.

Definition driftSimMarkets (markets : list Market) (rnd : nat -> Q)
  : list Market :=
  imap (fun i m => driftMarket m (rnd (3 * i)%nat) (rnd (3 * i + 1)%nat)
                     (rnd (3 * i + 2)%nat))
       markets.

(** ** Dashboard bookkeeping *)

(** The names every plain object inherits from [Object.prototype].  Read
    through such a name, an object without an own property of that name
    yields a function or the prototype itself, which is truthy and has no
    [slice]. *)
Definition objectPrototypeKeys : list string :=
  ["constructor"; "__proto__"; "hasOwnProperty"; "isPrototypeOf";
   "propertyIsEnumerable"; "toLocaleString"; "toString"; "valueOf";
   "__defineGetter__"; "__defineSetter__"; "__lookupGetter__";
   "__lookupSetter__"].

Definition inheritedKey (t : string) : bool :=
  existsb (String.eqb t) objectPrototypeKeys.

(** The callback of [forEach] in the updater of [setPriceHistory]:
    [prev = newHist[m.ticker] || []] and
    [newHist[m.ticker] = [...prev.slice(-30), m.mid]].  [None] stands for
    the TypeError of calling [slice] on an inherited property. *)
Definition recordPrice (newHist : gmap string (list Z)) (m : Market)
  : option (gmap string (list Z)) :=
  match newHist !! m_ticker m with
  | Some prev => Some (<[ m_ticker m := sliceLast 30 prev ++ [m_mid m] ]> newHist)
  | None =>
      if inheritedKey (m_ticker m) then None
      else Some (<[ m_ticker m := [m_mid m] ]> newHist)
  end.

(** The updater of [setPriceHistory]: every market of the snapshot, in
    order, gets its mid put behind the last 30 entries of its ticker. *)
Fixpoint recordPrices (updated : list Market) (hist : gmap string (list Z))
  : option (gmap string (list Z)) :=
  match updated with
  | [] => Some hist
  | m :: rest =>
      match recordPrice hist m with
      | Some newHist => recordPrices rest newHist
      | None => None
      end
  end.

(** [portfolio.equityCurve[length - 1] || 0]. *)
Definition lastEquity (p : Portfolio) : Z :=
  orZ (default 0 (last (equityCurve p))) 0.

Definition positionCount (p : Portfolio) : nat := base.size (positions p).

Definition winningTrades (p : Portfolio) : nat :=
  length (List.filter (fun t => 0 <? t_pnl t) (closedTrades p)).

Definition totalClosed (p : Portfolio) : nat := length (closedTrades p).

(** [s.replace(/\/+$/, "")]: the string without its trailing slashes. *)
Fixpoint trimSlashes (s : string) : string :=
  match s with
  | EmptyString => EmptyString
  | String c rest =>
      let r := trimSlashes rest in
      if String.eqb (String c "") "/" && String.eqb r "" then EmptyString
      else String c r
  end.

(** [getBackendUrl()], given the build-time [BACKEND_URL] and
    [window.location.hostname]. *)
Definition getBackendUrl (BACKEND_URL hostname : string) : string :=
  if negb (String.eqb BACKEND_URL "") then trimSlashes BACKEND_URL
  else if String.eqb hostname "localhost" then "http://localhost:8000"
  else "".

(** What one firing of the interval callback is given. *)
Record TickInput := {
  ti_cfg : Config;
  ti_markets : list Market;
  ti_rnd : nat -> Q;
  ti_now : string;
}.

(** The two portfolios a firing of the interval callback works with: the
    state in [Engine], which the portfolio updater receives as [prev], and
    [portfolioRef.current], which the risk filter reads and which an effect
    sets to the state after each render. *)
Record Dashboard := {
  d_engine : Engine;
  d_ref : Portfolio;
}.

(** One firing of the interval callback: the filter reads the ref, the
    ledger the state; the ref itself is left as it is. *)
Definition fire (cfg : Config) (currentMarkets : list Market) (rnd : nat -> Q)
  (now : string) (d : Dashboard) : Dashboard :=
  let newSignals := generateSignals cfg currentMarkets rnd 0 in
  let '(checkedSignals, placed, rejected) :=
    riskFilter (activeStrategy cfg) (valueParams cfg) (riskParams cfg)
      (d_ref d) newSignals 0 0 in
  {| d_engine :=
       {| portfolio := updatePortfolio currentMarkets checkedSignals now
                         (portfolio (d_engine d));
          signals := checkedSignals;
          cycleCount := cycleCount (d_engine d) + 1;
          totalSignals := totalSignals (d_engine d)
                          + Z.of_nat (length checkedSignals);
          ordersPlaced := ordersPlaced (d_engine d) + placed;
          ordersRejected := ordersRejected (d_engine d) + rejected |};
     d_ref := d_ref d |}.

(** [useEffect(() => { portfolioRef.current = portfolio; }, [portfolio])]. *)
Definition render (d : Dashboard) : Dashboard :=
  {| d_engine := d_engine d; d_ref := portfolio (d_engine d) |}.

Inductive Event :=
  | Fire (i : TickInput)
  | Render.

Definition step (d : Dashboard) (ev : Event) : Dashboard :=
  match ev with
  | Fire i => fire (ti_cfg i) (ti_markets i) (ti_rnd i) (ti_now i) d
  | Render => render d
  end.

Definition runEvents (evs : list Event) (d : Dashboard) : Dashboard :=
  foldl step d evs.

(** Every resting bid of a book is priced between 0 and 100 cents. *)
Definition bookInRange (ob : Orderbook) : Prop :=
  Forall (fun level => 0 <= level.1 <= 100) (default [] (ob_yes ob))
  /\ Forall (fun level => 0 <= level.1 <= 100) (default [] (ob_no ob)).

(** A quote as the simulated feed keeps it: everything between 1 and 99
    cents, the mid between bid and ask on the YES side, the NO bid not above
    the NO ask. *)
Definition simQuoted (m : Market) : Prop :=
  1 <= m_yesBid m <= m_mid m /\ m_mid m <= m_yesAsk m <= 99
  /\ 1 <= m_noBid m <= m_noAsk m /\ m_noAsk m <= 99.

(** A run of [n] slashes. *)
Fixpoint slashes (n : nat) : string :=
  match n with
  | O => EmptyString
  | S n' => String.append "/" (slashes n')
  end.

(** ** Fixtures for the feed and the value strategy *)

Definition lowValue : ValueParams :=
  {| threshold := 8; maxContracts := 5; minConfidence := 0.05 |}.

Definition rawRain : RawMarket :=
  {| r_ticker := "KXRAIN"; r_title := Some ""; r_subtitle := Some "Rain in LA";
     r_last_price := Some 44; r_volume := None |}.

Definition rainBook : Orderbook :=
  {| ob_yes := Some [(40, 10); (39, 25)]; ob_no := Some [(55, 5)] |}.

(** A market with a given ticker, quoted 47/53. *)
Definition marketNamed (t : string) : Market :=
  {| m_ticker := t; m_title := t; m_yesBid := 47; m_yesAsk := 53; m_noBid := 47;
     m_noAsk := 53; m_mid := 50; m_spread := 6; m_volume := 0 |}.

(** [M50] after a move of the mid to 60. *)
Definition rainAt60 : Market :=
  {| m_ticker := "RAIN-SIM"; m_title := "LA Rain > 0.5in This Week";
     m_yesBid := 57; m_yesAsk := 63; m_noBid := 37; m_noAsk := 43;
     m_mid := 60; m_spread := 6; m_volume := 1200 |}.

(** The dashboard rendered with the NO position of [holdingNo] open. *)
Definition heldNo : Dashboard :=
  {| d_engine :=
       {| portfolio := holdingNo; signals := [noFill]; cycleCount := 1;
          totalSignals := 1; ordersPlaced := 1; ordersRejected := 0 |};
     d_ref := holdingNo |}.

(** * Properties *)

(** ** Bounded histories *)

Section SliceLast.
Context {A : Type}.
Implicit Types (l : list A) (n : nat).

Lemma length_sliceLast n l : length (sliceLast n l) = Nat.min n (length l).
Proof. unfold sliceLast. rewrite length_drop. lia. Qed.

(** What [slice(-n)] keeps is a suffix: the elements dropped are the oldest. *)
Lemma sliceLast_suffix n l : take (length l - n) l ++ sliceLast n l = l.
Proof. apply take_drop. Qed.

Lemma length_sliceLast_le n l : (length (sliceLast n l) <= n)%nat.
Proof. rewrite length_sliceLast. lia. Qed.

Lemma sliceLast_short n l : (length l <= n)%nat -> sliceLast n l = l.
Proof.
  intros Hle. unfold sliceLast.
  replace (length l - n)%nat with 0%nat by lia. reflexivity.
Qed.
End SliceLast.

Lemma applySignal_closedTrades_le ms now prev next sig :
  (length (closedTrades next) <= 51)%nat ->
  (length (closedTrades (applySignal ms now prev next sig)) <= 51)%nat.
Proof.
  intros Hn. unfold applySignal.
  destruct (positions next !! posKey (s_ticker sig) (s_side sig));
    cbn [closedTrades].
  - pose proof (length_sliceLast_le 50 (closedTrades prev)).
    rewrite length_app. cbn [length]. lia.
  - exact Hn.
Qed.

Lemma foldl_applySignal_closedTrades_le ms now prev sigs : forall next,
  (length (closedTrades next) <= 51)%nat ->
  (length (closedTrades (foldl (applySignal ms now prev) next sigs)) <= 51)%nat.
Proof.
  induction sigs as [|sig sigs IH]; intros next Hn; simpl.
  - exact Hn.
  - apply IH. now apply applySignal_closedTrades_le.
Qed.

Lemma updatePortfolio_history_le ms checked now prev :
  (length (closedTrades prev) <= 51)%nat ->
  (length (equityCurve (updatePortfolio ms checked now prev)) <= 101)%nat
  /\ (length (closedTrades (updatePortfolio ms checked now prev)) <= 51)%nat.
Proof.
  intros Hp. unfold updatePortfolio. cbn [equityCurve closedTrades]. split.
  - pose proof (length_sliceLast_le 100 (equityCurve prev)).
    rewrite length_app. cbn [length]. lia.
  - now apply foldl_applySignal_closedTrades_le.
Qed.

(** The equity curve does evict oldest-first: each pass keeps a suffix of
    the old curve and puts the new sample last. *)
Lemma updatePortfolio_equityCurve ms checked now prev :
  exists sample,
    equityCurve (updatePortfolio ms checked now prev)
    = sliceLast 100 (equityCurve prev) ++ [sample]
    /\ take (length (equityCurve prev) - 100) (equityCurve prev)
       ++ sliceLast 100 (equityCurve prev) = equityCurve prev.
Proof.
  eexists. split; [reflexivity | apply sliceLast_suffix].
Qed.

Lemma portfolio_tick cfg ms rnd now e :
  portfolio (tick cfg ms rnd now e)
  = updatePortfolio ms (signals (tick cfg ms rnd now e)) now (portfolio e).
Proof.
  unfold tick.
  destruct (riskFilter _ _ _ _ _ _ _) as [[cs pl] rj]. reflexivity.
Qed.

(** The bounds the code does keep: one more than the constants it slices by. *)
Lemma reachable_history_le e :
  reachable e ->
  (length (equityCurve (portfolio e)) <= 101)%nat
  /\ (length (closedTrades (portfolio e)) <= 51)%nat.
Proof.
  induction 1 as [|cfg ms rnd now e Hr [_ IHc]|e Hr _].
  - simpl. lia.
  - rewrite portfolio_tick. now apply updatePortfolio_history_le.
  - simpl. lia.
Qed.

Lemma reachable_iter cfg ms rnd now n :
  reachable (Nat.iter n (tick cfg ms rnd now) initialEngine).
Proof.
  induction n as [|n IH]; simpl.
  - constructor.
  - now constructor.
Qed.

(** C1 (counterexample): the engine is constructed, and reset, with a
    balance of 10,000 cents, which is not the 1,000,000 the claim gives. *)
Lemma C1_balance_is_10000_not_1000000 :
  balance (portfolio initialEngine) = 10000
  /\ balance (portfolio (resetStats initialEngine)) = 10000
  /\ (balance (portfolio initialEngine) =? 1000000) = false.
Proof. repeat split. Qed.

(** C1 (amended): the portfolio starts with balance 10,000 cents, totalPnl 0,
    no positions, no closed trades, equityCurve [0] and totalFees 0, and
    [resetStats] puts exactly this portfolio back, from any engine state,
    together with zeroed counters and an empty signal list. *)
Theorem C1_initial_and_reset_portfolio :
  balance (portfolio initialEngine) = 10000
  /\ totalPnl (portfolio initialEngine) = 0
  /\ positions (portfolio initialEngine) = ∅
  /\ closedTrades (portfolio initialEngine) = []
  /\ equityCurve (portfolio initialEngine) = [0]
  /\ totalFees (portfolio initialEngine) = 0
  /\ forall e : Engine,
       portfolio (resetStats e) = portfolio initialEngine
       /\ resetStats e = initialEngine.
Proof. repeat split. Qed.

(** C2: after 104 ticks of the market-maker strategy on one market the
    equity curve holds 101 samples and the trade history 51 entries, one
    more than the 100 and 50 the histories are sliced to; and when two
    positions are closed in one tick only the second trade is recorded. *)
Theorem C2_histories_grow_to_101_and_51 :
  let e := Nat.iter 104 (tick mmConfig [M50] noRandom "12:00:00") initialEngine in
  let e2 := Nat.iter 2 (tick mmConfig [M50] noRandom "12:00:00") initialEngine in
  reachable e
  /\ length (equityCurve (portfolio e)) = 101%nat
  /\ length (closedTrades (portfolio e)) = 51%nat
  /\ ordersPlaced e2 = 4
  /\ positions (portfolio e2) = ∅
  /\ totalPnl (portfolio e2) = 12
  /\ map t_side (closedTrades (portfolio e2)) = [NO].
Proof.
  split; [apply reachable_iter|].
  vm_compute. repeat split.
Qed.

(** ** Strategy evaluators *)

Lemma Qltb_lt (x y : Q) : Qltb x y = true <-> (x < y)%Q.
Proof.
  unfold Qltb. rewrite negb_true_iff.
  destruct (Qle_bool y x) eqn:Hle; split; intros H; try reflexivity.
  - discriminate.
  - apply Qle_bool_iff in Hle. exfalso. exact (Qlt_not_le _ _ H Hle).
  - apply Qnot_le_lt. intros Hyx. apply Qle_bool_iff in Hyx. congruence.
Qed.

(** Halving with [Z]'s division is [Math.floor(spread / 2)]. *)
Lemma half_is_floor (s : Z) : s / 2 = Qfloor (inject_Z s / 2)%Q.
Proof. unfold Qfloor, Qdiv, Qmult, inject_Z. simpl. now rewrite Z.mul_1_r. Qed.

(** C7: for every market and parameters the market-maker strategy returns
    exactly two signals, a YES buy at max(1, mid - floor(spread/2)) and a NO
    buy at max(1, 100 - mid - floor(spread/2)), each of [size] contracts,
    confidence 1/2 and edge floor(spread/2); with spread 6, size 2 and
    mid 50 both bids are at 47 with edge 3. *)
Theorem C7_market_maker_two_signals (market : Market) (params : MMParams) :
  let half := Qfloor (inject_Z (spread params) / 2)%Q in
  (exists yes no,
      evaluateMMStrategy market params = [yes; no]
      /\ s_ticker yes = m_ticker market /\ s_ticker no = m_ticker market
      /\ s_side yes = YES /\ s_side no = NO
      /\ s_action yes = BUY /\ s_action no = BUY
      /\ s_price yes = Z.max 1 (m_mid market - half)
      /\ s_price no = Z.max 1 (100 - m_mid market - half)
      /\ s_count yes = size params /\ s_count no = size params
      /\ s_confidence yes = 1 # 2 /\ s_confidence no = 1 # 2
      /\ s_edge yes = inject_Z half /\ s_edge no = inject_Z half)
  /\ 2 * half <= spread params < 2 * half + 2
  /\ map (fun s => (s_side s, s_price s, s_count s, s_confidence s, s_edge s))
       (evaluateMMStrategy M50 {| spread := 6; size := 2 |})
     = [ (YES, 47, 2, 1 # 2, inject_Z 3); (NO, 47, 2, 1 # 2, inject_Z 3) ].
Proof.
  cbv zeta. rewrite <- half_is_floor. split; [|split].
  - eexists _, _. split; [reflexivity|]. cbn. repeat split.
  - pose proof (Z.div_mod (spread params) 2 ltac:(lia)).
    pose proof (Z.mod_pos_bound (spread params) 2 ltac:(lia)). lia.
  - reflexivity.
Qed.

(** ** Risk filter *)

Lemma dailyLoss_max pf : dailyLoss pf = Z.max 0 (- totalPnl pf).
Proof. unfold dailyLoss. destruct (Z.ltb_spec (totalPnl pf) 0); lia. Qed.

Lemma atPositionLimit_true rp (o : option Position) :
  atPositionLimit rp o = true
  <-> exists pos, o = Some pos /\ maxPositionPerMarket rp <= p_count pos.
Proof.
  unfold atPositionLimit. split.
  - destruct o as [pos|]; [|discriminate].
    intros H. exists pos. split; [reflexivity|]. now apply Z.leb_le.
  - intros (pos & -> & H). now apply Z.leb_le.
Qed.

Lemma lowConfidence_true strat vp sig :
  Qltb (s_confidence sig) (minConfidence vp) && negb (bool_decide (strat = MM)) = true
  <-> (s_confidence sig < minConfidence vp)%Q /\ strat <> MM.
Proof.
  rewrite andb_true_iff, Qltb_lt, negb_true_iff, bool_decide_eq_false. tauto.
Qed.

(** Closes the goals left once the branch of [checkSignal] is known. *)
Ltac verdict :=
  repeat split; intros;
  solve [reflexivity | discriminate | assumption | lia | tauto].

(** C5: the risk filter checks exposure, then confidence (skipped in
    market-maker-only mode), then the position limit, then the loss limit,
    and the first check that fails decides the verdict; a signal over the
    exposure limit is rejected with "Exposure limit" also when its
    confidence is below the minimum. *)
Theorem C5_risk_check_order (strat : Strategy) (vp : ValueParams)
  (rp : RiskParams) (pf : Portfolio) (sig : Signal) :
  let checked := checkSignal strat vp rp pf sig in
  let exposure := maxExposure rp < s_price sig * s_count sig in
  let lowConf := (s_confidence sig < minConfidence vp)%Q /\ strat <> MM in
  let posLimit :=
    exists pos, positions pf !! posKey (s_ticker sig) (s_side sig) = Some pos
                /\ maxPositionPerMarket rp <= p_count pos in
  let lossLimit := maxDailyLoss rp <= dailyLoss pf in
  (exposure -> checked = rejectWith sig "Exposure limit")
  /\ (~ exposure -> lowConf -> checked = rejectWith sig "Low confidence")
  /\ (~ exposure -> ~ lowConf -> posLimit ->
      checked = rejectWith sig "Position limit")
  /\ (~ exposure -> ~ lowConf -> ~ posLimit -> lossLimit ->
      checked = rejectWith sig "Daily loss limit")
  /\ (~ exposure -> ~ lowConf -> ~ posLimit -> ~ lossLimit ->
      checked = approve sig)
  /\ (exposure -> (s_confidence sig < minConfidence vp)%Q ->
      s_status checked = Some REJECTED
      /\ s_rejectReason checked = Some "Exposure limit").
Proof.
  cbv zeta. unfold checkSignal.
  destruct (Z.ltb_spec (maxExposure rp) (s_price sig * s_count sig)) as [He|He].
  { verdict. }
  destruct (Qltb (s_confidence sig) (minConfidence vp)
            && negb (bool_decide (strat = MM))) eqn:Hc.
  { apply lowConfidence_true in Hc.
    verdict. }
  assert (Hnc : ~ ((s_confidence sig < minConfidence vp)%Q /\ strat <> MM)).
  { intros H. apply lowConfidence_true in H. congruence. }
  destruct (atPositionLimit rp (positions pf !! posKey (s_ticker sig) (s_side sig)))
    eqn:Hp.
  { apply atPositionLimit_true in Hp.
    verdict. }
  assert (Hnp : ~ exists pos,
             positions pf !! posKey (s_ticker sig) (s_side sig) = Some pos
             /\ maxPositionPerMarket rp <= p_count pos).
  { intros H. apply atPositionLimit_true in H. congruence. }
  destruct (Z.leb_spec (maxDailyLoss rp) (dailyLoss pf)) as [Hl|Hl]; verdict.
Qed.

Lemma bigNoQuote_emitted :
  In bigNoQuote (evaluateMMStrategy T1 {| spread := 6; size := 10 |}).
Proof. right. left. reflexivity. Qed.

Lemma yesQuote_emitted :
  In yesQuote (evaluateMMStrategy M50 (mmParams defaultConfig)).
Proof. left. reflexivity. Qed.

Lemma fills_emitted :
  map approve (evaluateMMStrategy M50 (mmParams defaultConfig)) = [yesFill; noFill]
  /\ In openYes (map approve (evaluateMMStrategy T1 {| spread := 10; size := 3 |})).
Proof. split; [reflexivity | left; reflexivity]. Qed.

(** C5 (witness): a quote costing 520 against an exposure limit of 500, with
    confidence 0.5 below a minimum of 0.6, in mode "both". *)
Lemma C5_risk_check_order_witness :
  maxExposure tightRisk < s_price bigNoQuote * s_count bigNoQuote
  /\ (s_confidence bigNoQuote < minConfidence pickyValue)%Q
  /\ s_status (checkSignal Both pickyValue tightRisk initialPortfolio bigNoQuote)
     = Some REJECTED
  /\ s_rejectReason (checkSignal Both pickyValue tightRisk initialPortfolio bigNoQuote)
     = Some "Exposure limit".
Proof.
  split; [reflexivity|]. split; [reflexivity|].
  destruct (C5_risk_check_order Both pickyValue tightRisk initialPortfolio bigNoQuote)
    as (_ & _ & _ & _ & _ & H).
  apply H; reflexivity.
Defined.

(** C9 (counterexample): with totalPnl = -1000 and maxDailyLoss = 1000, a
    market-maker quote checked in mode "both" under minConfidence 0.6 is
    rejected with "Low confidence", not with "Daily loss limit". *)
Lemma C9_loss_limit_reached_other_reason :
  totalPnl lossyPortfolio = -1000
  /\ maxDailyLoss (riskParams defaultConfig) = 1000
  /\ s_status (checkSignal Both pickyValue (riskParams defaultConfig)
                 lossyPortfolio yesQuote) = Some REJECTED
  /\ s_rejectReason (checkSignal Both pickyValue (riskParams defaultConfig)
                       lossyPortfolio yesQuote) = Some "Low confidence"
  /\ s_rejectReason (checkSignal Both pickyValue (riskParams defaultConfig)
                       lossyPortfolio yesQuote) <> Some "Daily loss limit".
Proof. repeat split. discriminate. Qed.

(** C9 (amended): the loss measured is max(0, -totalPnl) of the portfolio
    the filter pass starts from.  A signal that passes the exposure,
    confidence and position checks is rejected with "Daily loss limit"
    exactly when that loss is at least maxDailyLoss; a signal that fails an
    earlier check keeps that check's reason.  With totalPnl = -1000 and
    maxDailyLoss = 1000 every signal is rejected, and with "Daily loss
    limit" whenever the three earlier checks pass. *)
Theorem C9_daily_loss_check (strat : Strategy) (vp : ValueParams)
  (rp : RiskParams) (pf : Portfolio) (sig : Signal) :
  let checked := checkSignal strat vp rp pf sig in
  let earlier := passesEarlierChecks strat vp rp pf sig in
  dailyLoss pf = Z.max 0 (- totalPnl pf)
  /\ (earlier = true ->
      (checked = rejectWith sig "Daily loss limit"
       <-> maxDailyLoss rp <= Z.max 0 (- totalPnl pf)))
  /\ (earlier = false ->
      s_status checked = Some REJECTED
      /\ s_rejectReason checked <> Some "Daily loss limit")
  /\ (maxDailyLoss rp <= Z.max 0 (- totalPnl pf) ->
      s_status checked = Some REJECTED)
  /\ (totalPnl pf = -1000 -> maxDailyLoss rp = 1000 ->
      s_status checked = Some REJECTED
      /\ (earlier = true -> s_rejectReason checked = Some "Daily loss limit")).
Proof.
  cbv zeta. rewrite <- dailyLoss_max.
  split; [reflexivity|].
  assert (Hloss : totalPnl pf = -1000 -> maxDailyLoss rp = 1000 ->
                  maxDailyLoss rp <= dailyLoss pf).
  { intros Hp Hm. rewrite dailyLoss_max. lia. }
  unfold passesEarlierChecks, checkSignal.
  destruct (maxExposure rp <? s_price sig * s_count sig).
  { cbn. verdict. }
  destruct (Qltb (s_confidence sig) (minConfidence vp)
            && negb (bool_decide (strat = MM))).
  { cbn. verdict. }
  destruct (atPositionLimit rp (positions pf !! posKey (s_ticker sig) (s_side sig))).
  { cbn. verdict. }
  cbn [negb andb].
  destruct (Z.leb_spec (maxDailyLoss rp) (dailyLoss pf)) as [Hl|Hl].
  - verdict.
  - verdict.
Qed.

(** C9 (witness): the default quote in market-maker mode at totalPnl = -1000. *)
Lemma C9_daily_loss_check_witness :
  totalPnl lossyPortfolio = -1000
  /\ maxDailyLoss (riskParams defaultConfig) = 1000
  /\ passesEarlierChecks MM (valueParams defaultConfig) (riskParams defaultConfig)
       lossyPortfolio yesQuote = true
  /\ s_status (checkSignal MM (valueParams defaultConfig) (riskParams defaultConfig)
                 lossyPortfolio yesQuote) = Some REJECTED
  /\ s_rejectReason (checkSignal MM (valueParams defaultConfig)
                       (riskParams defaultConfig) lossyPortfolio yesQuote)
     = Some "Daily loss limit".
Proof.
  split; [reflexivity|]. split; [reflexivity|]. split; [reflexivity|].
  destruct (C9_daily_loss_check MM (valueParams defaultConfig)
              (riskParams defaultConfig) lossyPortfolio yesQuote)
    as (_ & _ & _ & _ & H).
  destruct (H eq_refl eq_refl) as [Hs Hr].
  split; [exact Hs | exact (Hr eq_refl)].
Defined.

(** ** Confidence of generated signals *)

(** What the evaluators emit carries neither a status nor a reject reason,
    and a value signal has passed the evaluator's own confidence gate. *)
Lemma valueSignals_emitted market params fair sig :
  In sig (valueSignals market params fair) ->
  Qle_bool (minConfidence params) (s_confidence sig) = true
  /\ s_rejectReason sig = None.
Proof.
  unfold valueSignals. intros Hin. apply in_app_or in Hin.
  destruct Hin as [Hin|Hin].
  - destruct (Qle_bool (inject_Z (threshold params)) _); [|destruct Hin].
    destruct (Qle_bool (minConfidence params) _) eqn:Hc; [|destruct Hin].
    destruct Hin as [<-|[]]. split; [exact Hc | reflexivity].
  - destruct (Qle_bool (inject_Z (threshold params)) _); [|destruct Hin].
    destruct (Qle_bool (minConfidence params) _) eqn:Hc; [|destruct Hin].
    destruct Hin as [<-|[]]. split; [exact Hc | reflexivity].
Qed.

Lemma evaluateMMStrategy_emitted market params sig :
  In sig (evaluateMMStrategy market params) ->
  s_confidence sig = 1 # 2 /\ s_rejectReason sig = None.
Proof. intros [<-|[<-|[]]]; split; reflexivity. Qed.

(** Every new signal of a tick comes from one evaluator run on one market
    of the snapshot, and only from an evaluator the mode switches on. *)
Lemma generateSignals_origin cfg ms rnd sig : forall k,
  In sig (generateSignals cfg ms rnd k) ->
  (usesValue (activeStrategy cfg) = true
   /\ exists m r, In m ms /\ In sig (evaluateValueStrategy m (valueParams cfg) r))
  \/ (usesMM (activeStrategy cfg) = true
      /\ exists m, In m ms /\ In sig (evaluateMMStrategy m (mmParams cfg))).
Proof.
  induction ms as [|m ms IH]; intros k Hin; [destruct Hin|].
  cbn [generateSignals] in Hin.
  apply in_app_or in Hin. destruct Hin as [Hin|Hin].
  { destruct (usesValue (activeStrategy cfg)) eqn:Hv; [|destruct Hin].
    left. split; [reflexivity|]. exists m, (rnd k). split; [now left | exact Hin]. }
  apply in_app_or in Hin. destruct Hin as [Hin|Hin].
  { destruct (usesMM (activeStrategy cfg)) eqn:Hm; [|destruct Hin].
    right. split; [reflexivity|]. exists m. split; [now left | exact Hin]. }
  destruct (IH _ Hin) as [(Hv & m' & r & Hm' & Hs)|(Hm & m' & Hm' & Hs)].
  - left. split; [exact Hv|]. exists m', r. split; [now right | exact Hs].
  - right. split; [exact Hm|]. exists m'. split; [now right | exact Hs].
Qed.

Lemma riskFilter_checked strat vp rp pf sigs : forall placed rejected,
  fst (fst (riskFilter strat vp rp pf sigs placed rejected))
  = map (checkSignal strat vp rp pf) sigs.
Proof.
  induction sigs as [|sig sigs IH]; intros placed rejected; [reflexivity|].
  cbn [riskFilter map].
  destruct (isApproved (checkSignal strat vp rp pf sig)).
  - specialize (IH (placed + 1) rejected).
    destruct (riskFilter strat vp rp pf sigs (placed + 1) rejected) as [[out p'] r'].
    cbn in *. now rewrite IH.
  - specialize (IH placed (rejected + 1)).
    destruct (riskFilter strat vp rp pf sigs placed (rejected + 1)) as [[out p'] r'].
    cbn in *. now rewrite IH.
Qed.

(** The two counters split the checked signals into approved and not. *)
Lemma riskFilter_counts strat vp rp pf sigs : forall placed rejected,
  let '(out, placed', rejected') := riskFilter strat vp rp pf sigs placed rejected in
  placed' = placed + Z.of_nat (length (List.filter isApproved out))
  /\ placed' + rejected' = placed + rejected + Z.of_nat (length sigs).
Proof.
  induction sigs as [|sig sigs IH]; intros placed rejected.
  - cbn. lia.
  - cbn [riskFilter].
    destruct (isApproved (checkSignal strat vp rp pf sig)) eqn:Ha.
    + specialize (IH (placed + 1) rejected).
      destruct (riskFilter strat vp rp pf sigs (placed + 1) rejected) as [[out p'] r'].
      cbn [List.filter length]. rewrite Ha. cbn [length]. lia.
    + specialize (IH placed (rejected + 1)).
      destruct (riskFilter strat vp rp pf sigs placed (rejected + 1)) as [[out p'] r'].
      cbn [List.filter length]. rewrite Ha. lia.
Qed.

Lemma signals_tick cfg ms rnd now e :
  signals (tick cfg ms rnd now e)
  = map (checkSignal (activeStrategy cfg) (valueParams cfg) (riskParams cfg)
           (portfolio e))
        (generateSignals cfg ms rnd 0).
Proof.
  unfold tick. rewrite <- (riskFilter_checked _ _ _ _ _ 0 0).
  destruct (riskFilter _ _ _ _ _ _ _) as [[cs pl] rj]. reflexivity.
Qed.

(** Only the second check writes "Low confidence". *)
Lemma checkSignal_low_confidence strat vp rp pf sig :
  s_rejectReason sig = None ->
  s_rejectReason (checkSignal strat vp rp pf sig) = Some "Low confidence" ->
  (s_confidence sig < minConfidence vp)%Q /\ strat <> MM
  /\ checkSignal strat vp rp pf sig = rejectWith sig "Low confidence".
Proof.
  intros Hnone. unfold checkSignal.
  destruct (maxExposure rp <? s_price sig * s_count sig); [discriminate|].
  destruct (Qltb _ _ && negb _) eqn:Hc.
  { intros _. apply lowConfidence_true in Hc. tauto. }
  destruct (atPositionLimit _ _); [discriminate|].
  destruct (maxDailyLoss rp <=? dailyLoss pf); [discriminate|].
  cbn. rewrite Hnone. discriminate.
Qed.

(** C10: a signal the value strategy emits has confidence at least
    minConfidence, so the risk filter, which reads the same parameter, never
    rejects it with "Low confidence"; a signal of a tick that carries that
    reason is a market-maker quote of confidence 1/2, checked in mode "both"
    with minConfidence above 1/2. *)
Theorem C10_low_confidence_only_market_maker (cfg : Config)
  (currentMarkets : list Market) (rnd : nat -> Q) (now : string) (e : Engine) :
  (forall m r sig strat rp pf,
      In sig (evaluateValueStrategy m (valueParams cfg) r) ->
      (minConfidence (valueParams cfg) <= s_confidence sig)%Q
      /\ s_rejectReason (checkSignal strat (valueParams cfg) rp pf sig)
         <> Some "Low confidence")
  /\ (forall checked,
        In checked (signals (tick cfg currentMarkets rnd now e)) ->
        s_rejectReason checked = Some "Low confidence" ->
        activeStrategy cfg = Both
        /\ (1 # 2 < minConfidence (valueParams cfg))%Q
        /\ exists m sig,
             In m currentMarkets
             /\ In sig (evaluateMMStrategy m (mmParams cfg))
             /\ s_confidence sig = 1 # 2
             /\ checked = rejectWith sig "Low confidence").
Proof.
  assert (Hvalue : forall m r sig strat rp pf,
             In sig (evaluateValueStrategy m (valueParams cfg) r) ->
             (minConfidence (valueParams cfg) <= s_confidence sig)%Q
             /\ s_rejectReason (checkSignal strat (valueParams cfg) rp pf sig)
                <> Some "Low confidence").
  { intros m r sig strat rp pf Hin.
    apply valueSignals_emitted in Hin. destruct Hin as [Hc Hnone].
    split; [now apply Qle_bool_iff|].
    intros Hlow. apply checkSignal_low_confidence in Hlow; [|exact Hnone].
    destruct Hlow as (Hlt & _ & _). apply Qle_bool_iff in Hc.
    exact (Qlt_not_le _ _ Hlt Hc). }
  split; [exact Hvalue|].
  intros checked Hin Hlow. rewrite signals_tick in Hin.
  apply in_map_iff in Hin. destruct Hin as (sig & <- & Hin).
  apply generateSignals_origin in Hin.
  destruct Hin as [(_ & m & r & _ & Hs)|(Hmm & m & Hm & Hs)].
  - exfalso. exact (proj2 (Hvalue m r sig _ _ _ Hs) Hlow).
  - destruct (evaluateMMStrategy_emitted _ _ _ Hs) as [Hconf Hnone].
    apply checkSignal_low_confidence in Hlow; [|exact Hnone].
    destruct Hlow as (Hlt & Hne & Heq).
    split; [|split].
    + destruct (activeStrategy cfg); [discriminate Hmm | congruence | reflexivity].
    + now rewrite Hconf in Hlt.
    + exists m, sig. repeat split; assumption.
Qed.

(** C10 (witness): one tick in mode "both" with minConfidence 0.6 on the
    market [M50]; the market maker's YES quote is rejected for confidence. *)
Lemma C10_low_confidence_only_market_maker_witness :
  In (rejectWith yesQuote "Low confidence")
     (signals (tick pickyBoth [M50] noRandom "12:00:00" initialEngine))
  /\ s_rejectReason (rejectWith yesQuote "Low confidence") = Some "Low confidence"
  /\ activeStrategy pickyBoth = Both
  /\ (1 # 2 < minConfidence (valueParams pickyBoth))%Q.
Proof.
  assert (Hin : In (rejectWith yesQuote "Low confidence")
                  (signals (tick pickyBoth [M50] noRandom "12:00:00" initialEngine))).
  { left. reflexivity. }
  split; [exact Hin|]. split; [reflexivity|].
  destruct (proj2 (C10_low_confidence_only_market_maker pickyBoth [M50] noRandom
                     "12:00:00" initialEngine) _ Hin eq_refl) as (Hb & Hlt & _).
  split; [exact Hb | exact Hlt].
Defined.

(** ** The low-confidence scenario *)

(** C6 (counterexample): with fair = 60 on T1 and the default value
    parameters the value strategy returns no signal at all, so a tick in
    value mode hands the risk filter an empty list and nothing is rejected. *)
Lemma C6_scenario_emits_no_signal :
  valueSignals T1 (valueParams defaultConfig) 60 = []
  /\ evaluateValueStrategy T1 (valueParams defaultConfig) (forcedDraw 0) = []
  /\ signals (tick defaultConfig [T1] forcedDraw "12:00:00" initialEngine) = []
  /\ ordersRejected (tick defaultConfig [T1] forcedDraw "12:00:00" initialEngine) = 0.
Proof. repeat split. Qed.

(** C6 (amended): in the scenario the edge is 10, at least the threshold 8,
    and the confidence is 0.10, below minConfidence 0.3; for that reason the
    value strategy itself emits no signal, and the risk filter, run on its
    output under any mode, risk parameters and portfolio, returns no signal
    and counts no rejection. *)
Theorem C6_value_scenario :
  let vp := valueParams defaultConfig in
  let fair := 60%Q in
  threshold vp = 8 /\ maxContracts vp = 5 /\ (minConfidence vp == 3 # 10)%Q
  /\ (fair - inject_Z (m_yesAsk T1) == 10)%Q
  /\ (inject_Z (threshold vp) <= fair - inject_Z (m_yesAsk T1))%Q
  /\ (Qmin ((fair - inject_Z (m_yesAsk T1)) / 100) 1 == 1 # 10)%Q
  /\ (Qmin ((fair - inject_Z (m_yesAsk T1)) / 100) 1 < minConfidence vp)%Q
  /\ valueSignals T1 vp fair = []
  /\ forall strat rp pf,
       riskFilter strat vp rp pf (valueSignals T1 vp fair) 0 0 = ([], 0, 0).
Proof.
  cbv zeta. repeat split; try discriminate.
Qed.

(** ** Ledger *)

Lemma midOrPrice_found ms sig m :
  findMarket (s_ticker sig) ms = Some m -> m_mid m <> 0 ->
  midOrPrice ms sig = m_mid m.
Proof.
  intros Hf Hm. unfold midOrPrice. rewrite Hf.
  destruct (Z.eqb_spec (m_mid m) 0); [contradiction | reflexivity].
Qed.

Lemma exitPriceOf_found ms sig m :
  findMarket (s_ticker sig) ms = Some m -> m_mid m <> 0 ->
  exitPriceOf ms sig = match s_side sig with YES => m_mid m | NO => 100 - m_mid m end.
Proof.
  intros Hf Hm. unfold exitPriceOf. now rewrite (midOrPrice_found _ _ _ Hf Hm).
Qed.


Lemma findMarket_first t before m after :
  Forall (fun m0 => m_ticker m0 <> t) before ->
  m_ticker m = t ->
  findMarket t (before ++ m :: after) = Some m.
Proof.
  intros Hb Hm. induction Hb as [|m0 before Hne _ IH]; cbn.
  - destruct (String.eqb_spec (m_ticker m) t); [reflexivity | contradiction].
  - destruct (String.eqb_spec (m_ticker m0) t); [contradiction | exact IH].
Qed.

Lemma findMarket_absent t ms :
  Forall (fun m0 => m_ticker m0 <> t) ms -> findMarket t ms = None.
Proof.
  intros Hb. induction Hb as [|m0 ms Hne _ IH]; cbn; [reflexivity|].
  destruct (String.eqb_spec (m_ticker m0) t); [contradiction | exact IH].
Qed.







(** ** Fees and balance *)

(** Fees at a few sizes and prices.  At 4 and at 10 contracts of 50 cents
    the product is 7 and 17.5 in exact arithmetic; in binary64 the first
    comes out just above 7, so its ceiling is 8. *)
Lemma fee_examples :
  fee 3 50 = 6 /\ fee 2 47 = 4 /\ fee 3 41 = 6 /\ fee 4 50 = 8 /\ fee 10 50 = 18.
Proof. vm_compute. repeat split. Qed.

(** Over every price from 0 to 100 cents and every size from 1 to 20 the
    fee is the exact ceiling or one cent above it, is never negative, and
    vanishes at the two price extremes. *)
Lemma fee_near_exact :
  forallb (fun c =>
     forallb (fun p =>
        (exactFee c p <=? fee c p) && (fee c p <=? exactFee c p + 1)
        && (0 <=? fee c p))
       (seqZ 0 101)
     && (fee c 0 =? 0) && (fee c 100 =? 0))
    (seqZ 1 20) = true.
Proof. vm_compute. reflexivity. Qed.

Lemma applySignal_totalFees ms now prev next sig :
  totalFees (applySignal ms now prev next sig)
  = totalFees next + fee (s_count sig) (s_price sig).
Proof.
  unfold applySignal.
  destruct (positions next !! posKey (s_ticker sig) (s_side sig)); reflexivity.
Qed.

Lemma foldl_applySignal_totalFees ms now prev sigs : forall next,
  totalFees (foldl (applySignal ms now prev) next sigs)
  = totalFees next + sumFees sigs.
Proof.
  induction sigs as [|sig sigs IH]; intros next; cbn [foldl sumFees foldr].
  - lia.
  - rewrite IH, applySignal_totalFees. fold (sumFees sigs). lia.
Qed.

(** How one signal moves balance, totalPnl and totalFees, and how the fees of
    a pass add up. *)
Lemma applySignal_accounting (currentMarkets : list Market) (now : string)
  (prev next : Portfolio) (sig : Signal) :
  let f := fee (s_count sig) (s_price sig) in
  let next' := applySignal currentMarkets now prev next sig in
  totalFees next' = totalFees next + f
  /\ match positions next !! posKey (s_ticker sig) (s_side sig) with
     | None =>
         balance next' = balance next - f - s_price sig * s_count sig
         /\ totalPnl next' = totalPnl next
     | Some existing =>
         let pnl := (exitPriceOf currentMarkets sig - p_avgPrice existing)
                    * p_count existing in
         balance next' = balance next - f + pnl
         /\ totalPnl next' = totalPnl next + pnl
     end
  /\ forall checkedSignals,
       totalFees (updatePortfolio currentMarkets checkedSignals now prev)
       = totalFees prev + sumFees (List.filter isApproved checkedSignals).
Proof.
  cbv zeta. split; [apply applySignal_totalFees|]. split.
  - unfold applySignal.
    destruct (positions next !! posKey (s_ticker sig) (s_side sig));
      split; reflexivity.
  - intros checkedSignals. unfold updatePortfolio. cbn [totalFees].
    apply foldl_applySignal_totalFees.
Qed.

(** C8: one tick of the market maker quoting 4 contracts on a market at
    mid 53.  The YES quote is 4 contracts at 50 cents and is approved; the
    documented fee ceil(0.07 * 4 * 0.5 * 0.5 * 100) is ceil(7) = 7, but the
    product comes out just above 7 in double arithmetic and the code charges
    8.  With the NO quote (4 at 44 cents, fee 7 either way) the tick books
    15 cents of fees where the formula gives 14, and the balance ends one
    cent lower than the documented update, at 9609 instead of 9610. *)
Theorem C8_fee_one_cent_above_formula :
  let e := tick mmSize4 [M53] noRandom "12:00:00" initialEngine in
  map (fun s => (s_side s, s_price s, s_count s, s_status s)) (signals e)
  = [ (YES, 50, 4, Some APPROVED); (NO, 44, 4, Some APPROVED) ]
  /\ exactFee 4 50 = 7 /\ fee 4 50 = 8
  /\ exactFee 4 44 = 7 /\ fee 4 44 = 7
  /\ totalFees (portfolio e) = 15
  /\ balance (portfolio e) = 9609
  /\ 10000 - exactFee 4 50 - 50 * 4 - exactFee 4 44 - 44 * 4 = 9610.
Proof. vm_compute. repeat split. Qed.

(** * Further properties of the engine *)

(** ** Counters and histories over a run *)

Lemma tick_counters cfg ms rnd now e :
  cycleCount (tick cfg ms rnd now e) = cycleCount e + 1
  /\ totalSignals (tick cfg ms rnd now e)
     = totalSignals e + Z.of_nat (length (signals (tick cfg ms rnd now e)))
  /\ ordersPlaced (tick cfg ms rnd now e)
     = ordersPlaced e
       + Z.of_nat (length (List.filter isApproved (signals (tick cfg ms rnd now e))))
  /\ ordersPlaced (tick cfg ms rnd now e) + ordersRejected (tick cfg ms rnd now e)
     = ordersPlaced e + ordersRejected e
       + Z.of_nat (length (signals (tick cfg ms rnd now e))).
Proof.
  unfold tick.
  pose proof (riskFilter_counts (activeStrategy cfg) (valueParams cfg)
                (riskParams cfg) (portfolio e) (generateSignals cfg ms rnd 0) 0 0)
    as Hc.
  pose proof (riskFilter_checked (activeStrategy cfg) (valueParams cfg)
                (riskParams cfg) (portfolio e) (generateSignals cfg ms rnd 0) 0 0)
    as Hm.
  destruct (riskFilter _ _ _ _ _ _ _) as [[cs pl] rj].
  cbn in Hm. subst cs. cbn. rewrite length_map in *. lia.
Qed.

(** X1: in every state the engine can reach the equity curve holds between
    1 and 101 samples and the trade history at most 51 trades, so the
    banner's last sample always exists and the win count never exceeds the
    trade count. *)
Theorem reachable_histories_bounded (e : Engine) :
  reachable e ->
  (1 <= length (equityCurve (portfolio e)) <= 101)%nat
  /\ (winningTrades (portfolio e) <= totalClosed (portfolio e) <= 51)%nat
  /\ exists sample, last (equityCurve (portfolio e)) = Some sample.
Proof.
  intros Hr.
  assert (H : (1 <= length (equityCurve (portfolio e)) <= 101)%nat
              /\ (length (closedTrades (portfolio e)) <= 51)%nat).
  { induction Hr as [|cfg ms rnd now e Hr [_ IHc]|e Hr _].
    - cbn. lia.
    - rewrite portfolio_tick.
      destruct (updatePortfolio_history_le ms
                  (signals (tick cfg ms rnd now e)) now (portfolio e) IHc)
        as [He Hc].
      split; [split; [|exact He] | exact Hc].
      unfold updatePortfolio. cbn [equityCurve]. rewrite length_app. cbn. lia.
    - cbn. lia. }
  destruct H as [He Hc]. split; [exact He|]. split.
  - unfold winningTrades, totalClosed. split; [apply filter_length_le | exact Hc].
  - destruct (equityCurve (portfolio e)) as [|x l] eqn:Hl using rev_ind.
    + cbn in He. lia.
    + eexists. apply last_snoc.
Qed.

(** X1 (witness): the state after three market-maker ticks. *)
Lemma reachable_histories_bounded_witness :
  reachable (Nat.iter 3 (tick mmConfig [M50] noRandom "12:00:00") initialEngine)
  /\ (1 <= length (equityCurve (portfolio
            (Nat.iter 3 (tick mmConfig [M50] noRandom "12:00:00") initialEngine)))
       <= 101)%nat.
Proof.
  split; [apply reachable_iter|].
  exact (proj1 (reachable_histories_bounded _ (reachable_iter mmConfig [M50] noRandom
                                                 "12:00:00" 3))).
Defined.

(** X2: in every reachable state the counters are non-negative and
    totalSignals = ordersPlaced + ordersRejected: every signal ever checked
    was counted as placed or as rejected, never both and never neither. *)
Theorem reachable_counters_balance (e : Engine) :
  reachable e ->
  totalSignals e = ordersPlaced e + ordersRejected e
  /\ 0 <= ordersPlaced e /\ 0 <= ordersRejected e /\ 0 <= cycleCount e.
Proof.
  induction 1 as [|cfg ms rnd now e Hr (IHt & IHp & IHr & IHc)|e Hr _].
  - cbn. lia.
  - destruct (tick_counters cfg ms rnd now e) as (Hc & Ht & Hp & Hpr).
    pose proof (filter_length_le isApproved (signals (tick cfg ms rnd now e))).
    lia.
  - cbn. lia.
Qed.

(** X2 (witness): the state after three market-maker ticks. *)
Lemma reachable_counters_balance_witness :
  reachable (Nat.iter 3 (tick mmConfig [M50] noRandom "12:00:00") initialEngine)
  /\ totalSignals (Nat.iter 3 (tick mmConfig [M50] noRandom "12:00:00") initialEngine)
     = 6.
Proof.
  split; [apply reachable_iter|].
  destruct (reachable_counters_balance _ (reachable_iter mmConfig [M50] noRandom
                                            "12:00:00" 3)) as (Ht & _).
  rewrite Ht. reflexivity.
Defined.

(** ** What the ledger leaves alone *)

Lemma applySignal_other_key ms now prev next sig k :
  posKey (s_ticker sig) (s_side sig) <> k ->
  positions (applySignal ms now prev next sig) !! k = positions next !! k.
Proof.
  intros Hk. unfold applySignal.
  destruct (positions next !! posKey (s_ticker sig) (s_side sig));
    cbn [positions].
  - now apply lookup_delete_ne.
  - now apply lookup_insert_ne.
Qed.

Lemma foldl_applySignal_other_keys ms now prev k sigs : forall next,
  Forall (fun sig => posKey (s_ticker sig) (s_side sig) <> k) sigs ->
  positions (foldl (applySignal ms now prev) next sigs) !! k = positions next !! k.
Proof.
  induction sigs as [|sig sigs IH]; intros next Hall; [reflexivity|].
  inversion Hall as [|? ? Hsig Hrest]; subst. cbn [foldl].
  rewrite IH by exact Hrest. now apply applySignal_other_key.
Qed.

Lemma updatePortfolio_none_approved ms checked now prev :
  List.filter isApproved checked = [] ->
  updatePortfolio ms checked now prev
  = {| balance := balance prev; totalPnl := totalPnl prev;
       positions := positions prev; closedTrades := closedTrades prev;
       equityCurve := sliceLast 100 (equityCurve prev)
                      ++ [totalPnl prev + unrealizedPnl ms (positions prev)];
       totalFees := totalFees prev |}.
Proof. intros Hnone. unfold updatePortfolio. now rewrite Hnone. Qed.

Lemma checkSignal_at_loss_limit strat vp rp pf sig :
  maxDailyLoss rp <= dailyLoss pf ->
  isApproved (checkSignal strat vp rp pf sig) = false.
Proof.
  intros Hl. unfold checkSignal.
  destruct (maxExposure rp <? s_price sig * s_count sig); [reflexivity|].
  destruct (Qltb _ _ && negb _); [reflexivity|].
  destruct (atPositionLimit _ _); [reflexivity|].
  destruct (Z.leb_spec (maxDailyLoss rp) (dailyLoss pf)); [reflexivity | lia].
Qed.

Lemma checkSignal_at_position_limit strat vp rp pf sig pos :
  positions pf !! posKey (s_ticker sig) (s_side sig) = Some pos ->
  maxPositionPerMarket rp <= p_count pos ->
  isApproved (checkSignal strat vp rp pf sig) = false.
Proof.
  intros Hpos Hc. unfold checkSignal.
  destruct (maxExposure rp <? s_price sig * s_count sig); [reflexivity|].
  destruct (Qltb _ _ && negb _); [reflexivity|].
  rewrite Hpos. cbn [atPositionLimit].
  destruct (Z.leb_spec (maxPositionPerMarket rp) (p_count pos)); [reflexivity | lia].
Qed.

Lemma filter_isApproved_none (f : Signal -> Signal) sigs :
  (forall sig, isApproved (f sig) = false) ->
  List.filter isApproved (map f sigs) = [].
Proof.
  intros Hf. induction sigs as [|sig sigs IH]; [reflexivity|].
  cbn. now rewrite Hf.
Qed.

Lemma checkSignal_key strat vp rp pf sig :
  s_ticker (checkSignal strat vp rp pf sig) = s_ticker sig
  /\ s_side (checkSignal strat vp rp pf sig) = s_side sig.
Proof.
  unfold checkSignal.
  destruct (maxExposure rp <? s_price sig * s_count sig); [split; reflexivity|].
  destruct (Qltb _ _ && negb _); [split; reflexivity|].
  destruct (atPositionLimit _ _); [split; reflexivity|].
  destruct (maxDailyLoss rp <=? dailyLoss pf); split; reflexivity.
Qed.

Lemma fire_engine cfg ms rnd now d :
  signals (d_engine (fire cfg ms rnd now d))
  = map (checkSignal (activeStrategy cfg) (valueParams cfg) (riskParams cfg)
           (d_ref d))
        (generateSignals cfg ms rnd 0)
  /\ portfolio (d_engine (fire cfg ms rnd now d))
     = updatePortfolio ms (signals (d_engine (fire cfg ms rnd now d))) now
         (portfolio (d_engine d))
  /\ ordersPlaced (d_engine (fire cfg ms rnd now d))
     = ordersPlaced (d_engine d)
       + Z.of_nat (length (List.filter isApproved
                             (signals (d_engine (fire cfg ms rnd now d)))))
  /\ d_ref (fire cfg ms rnd now d) = d_ref d.
Proof.
  unfold fire.
  pose proof (riskFilter_counts (activeStrategy cfg) (valueParams cfg)
                (riskParams cfg) (d_ref d) (generateSignals cfg ms rnd 0) 0 0)
    as Hc.
  pose proof (riskFilter_checked (activeStrategy cfg) (valueParams cfg)
                (riskParams cfg) (d_ref d) (generateSignals cfg ms rnd 0) 0 0)
    as Hm.
  destruct (riskFilter _ _ _ _ _ _ _) as [[cs pl] rj].
  cbn in Hm. subst cs. cbn. repeat split. lia.
Qed.

(** When the ref holds the state, a firing is a [tick]. *)
Lemma fire_rendered cfg ms rnd now d :
  d_ref d = portfolio (d_engine d) ->
  d_engine (fire cfg ms rnd now d) = tick cfg ms rnd now (d_engine d).
Proof.
  intros Href. unfold fire, tick. rewrite Href.
  destruct (riskFilter _ _ _ _ _ _ _) as [[cs pl] rj]. reflexivity.
Qed.

(** A firing before the render works on a stale ref: after one firing has
    opened both positions on M50, a second firing whose filter still reads
    the initial portfolio approves both quotes again and closes them, under
    a position limit of 2 that the open positions have reached. *)
Lemma fire_before_render_reads_stale_ref :
  let cfg := {| activeStrategy := MM; valueParams := valueParams defaultConfig;
                mmParams := mmParams defaultConfig;
                riskParams := {| maxPositionPerMarket := 2; maxExposure := 5000;
                                 maxDailyLoss := 1000 |} |} in
  let d0 := {| d_engine := initialEngine; d_ref := initialPortfolio |} in
  let twice := fire cfg [M50] noRandom "12:00:03"
                 (fire cfg [M50] noRandom "12:00:00" d0) in
  let rendered := fire cfg [M50] noRandom "12:00:03"
                    (render (fire cfg [M50] noRandom "12:00:00" d0)) in
  positions (portfolio (d_engine twice)) = ∅
  /\ ordersPlaced (d_engine twice) = 4
  /\ base.size (positions (portfolio (d_engine rendered))) = 2%nat
  /\ ordersPlaced (d_engine rendered) = 2.
Proof. vm_compute. repeat split. Qed.

Lemma fire_at_loss_limit cfg ms rnd now d :
  maxDailyLoss (riskParams cfg) <= dailyLoss (d_ref d) ->
  ordersPlaced (d_engine (fire cfg ms rnd now d)) = ordersPlaced (d_engine d)
  /\ portfolio (d_engine (fire cfg ms rnd now d))
     = {| balance := balance (portfolio (d_engine d));
          totalPnl := totalPnl (portfolio (d_engine d));
          positions := positions (portfolio (d_engine d));
          closedTrades := closedTrades (portfolio (d_engine d));
          equityCurve := sliceLast 100 (equityCurve (portfolio (d_engine d)))
                         ++ [totalPnl (portfolio (d_engine d))
                             + unrealizedPnl ms (positions (portfolio (d_engine d)))];
          totalFees := totalFees (portfolio (d_engine d)) |}.
Proof.
  intros Hl. destruct (fire_engine cfg ms rnd now d) as (Hs & Hp & Ho & _).
  assert (Hnone : List.filter isApproved
                    (signals (d_engine (fire cfg ms rnd now d))) = []).
  { rewrite Hs. apply filter_isApproved_none.
    intros sig. now apply checkSignal_at_loss_limit. }
  rewrite Hnone in Ho. cbn in Ho. split; [lia|].
  rewrite Hp. now apply updatePortfolio_none_approved.
Qed.

(** X3: when the portfolio the risk filter reads and the portfolio in the
    state show the same realized totalPnl, and the loss max(0, -totalPnl)
    has reached the loss limit, no sequence of firings and renders whose
    configurations keep the limit at or below that loss places an order or
    changes balance, totalPnl, positions, trade history or fees, and the
    filter keeps reading that loss: the engine stays locked out. *)
Theorem loss_limit_is_absorbing (evs : list Event) (d : Dashboard) :
  totalPnl (d_ref d) = totalPnl (portfolio (d_engine d)) ->
  Forall (fun ev => match ev with
                    | Fire i => maxDailyLoss (riskParams (ti_cfg i))
                                <= dailyLoss (d_ref d)
                    | Render => True
                    end) evs ->
  ordersPlaced (d_engine (runEvents evs d)) = ordersPlaced (d_engine d)
  /\ balance (portfolio (d_engine (runEvents evs d)))
     = balance (portfolio (d_engine d))
  /\ totalPnl (portfolio (d_engine (runEvents evs d)))
     = totalPnl (portfolio (d_engine d))
  /\ positions (portfolio (d_engine (runEvents evs d)))
     = positions (portfolio (d_engine d))
  /\ closedTrades (portfolio (d_engine (runEvents evs d)))
     = closedTrades (portfolio (d_engine d))
  /\ totalFees (portfolio (d_engine (runEvents evs d)))
     = totalFees (portfolio (d_engine d))
  /\ dailyLoss (d_ref (runEvents evs d)) = dailyLoss (d_ref d).
Proof.
  revert d. induction evs as [|ev evs IH]; intros d Hsync Hall.
  { repeat split. }
  inversion Hall as [|? ? Hev Hrest]; subst. cbn [runEvents foldl].
  fold (runEvents evs (step d ev)).
  assert (Hstep : ordersPlaced (d_engine (step d ev)) = ordersPlaced (d_engine d)
                  /\ balance (portfolio (d_engine (step d ev)))
                     = balance (portfolio (d_engine d))
                  /\ totalPnl (portfolio (d_engine (step d ev)))
                     = totalPnl (portfolio (d_engine d))
                  /\ positions (portfolio (d_engine (step d ev)))
                     = positions (portfolio (d_engine d))
                  /\ closedTrades (portfolio (d_engine (step d ev)))
                     = closedTrades (portfolio (d_engine d))
                  /\ totalFees (portfolio (d_engine (step d ev)))
                     = totalFees (portfolio (d_engine d))
                  /\ totalPnl (d_ref (step d ev)) = totalPnl (d_ref d)).
  { destruct ev as [i|]; cbn [step].
    - destruct (fire_at_loss_limit (ti_cfg i) (ti_markets i) (ti_rnd i) (ti_now i)
                  d Hev) as [Ho Hp].
      destruct (fire_engine (ti_cfg i) (ti_markets i) (ti_rnd i) (ti_now i) d)
        as (_ & _ & _ & Hr).
      rewrite Ho, Hp, Hr. repeat split.
    - cbn. repeat split. symmetry. exact Hsync. }
  destruct Hstep as (S1 & S2 & S3 & S4 & S5 & S6 & S7).
  assert (Hloss : dailyLoss (d_ref (step d ev)) = dailyLoss (d_ref d))
    by (unfold dailyLoss; now rewrite S7).
  destruct (IH (step d ev)) as (H1 & H2 & H3 & H4 & H5 & H6 & H7).
  - now rewrite S7, S3.
  - eapply Forall_impl; [exact Hrest|]. intros [j|]; [|trivial].
    now rewrite Hloss.
  - rewrite H1, H2, H3, H4, H5, H6, H7. repeat split; assumption.
Qed.

(** X3 (witness): a firing, a render and a second firing in mode "both"
    from a portfolio that has lost 1000 cents, under the default limit of
    1000. *)
Lemma loss_limit_is_absorbing_witness :
  let d := {| d_engine := {| portfolio := lossyPortfolio; signals := [];
                             cycleCount := 9; totalSignals := 40;
                             ordersPlaced := 30; ordersRejected := 10 |};
              d_ref := lossyPortfolio |} in
  let i := {| ti_cfg := pickyBoth; ti_markets := [M50; T1]; ti_rnd := noRandom;
              ti_now := "12:00:00" |} in
  maxDailyLoss (riskParams pickyBoth) <= dailyLoss lossyPortfolio
  /\ ordersPlaced (d_engine (runEvents [Fire i; Render; Fire i] d)) = 30
  /\ totalPnl (portfolio (d_engine (runEvents [Fire i; Render; Fire i] d))) = -1000.
Proof.
  cbv zeta.
  assert (Hl : maxDailyLoss (riskParams pickyBoth) <= dailyLoss lossyPortfolio)
    by (vm_compute; discriminate).
  split; [exact Hl|].
  destruct (loss_limit_is_absorbing
              [ Fire {| ti_cfg := pickyBoth; ti_markets := [M50; T1];
                        ti_rnd := noRandom; ti_now := "12:00:00" |};
                Render;
                Fire {| ti_cfg := pickyBoth; ti_markets := [M50; T1];
                        ti_rnd := noRandom; ti_now := "12:00:00" |} ]
              {| d_engine := {| portfolio := lossyPortfolio; signals := [];
                                cycleCount := 9; totalSignals := 40;
                                ordersPlaced := 30; ordersRejected := 10 |};
                 d_ref := lossyPortfolio |} eq_refl)
    as (Hp & _ & Ht & _).
  { repeat constructor; exact Hl. }
  split; [exact Hp | exact Ht].
Defined.

Lemma fire_key_untouched cfg ms rnd now d k :
  (forall sig, posKey (s_ticker sig) (s_side sig) = k ->
     isApproved (checkSignal (activeStrategy cfg) (valueParams cfg) (riskParams cfg)
                   (d_ref d) sig) = false) ->
  positions (portfolio (d_engine (fire cfg ms rnd now d))) !! k
  = positions (portfolio (d_engine d)) !! k.
Proof.
  intros Hk. destruct (fire_engine cfg ms rnd now d) as (Hs & Hp & _).
  rewrite Hp, Hs. unfold updatePortfolio. cbn [positions].
  apply foldl_applySignal_other_keys.
  apply Forall_forall. intros s Hin.
  apply list_elem_of_In, filter_In in Hin. destruct Hin as [Hin Happ].
  apply in_map_iff in Hin. destruct Hin as (sig & <- & _).
  destruct (checkSignal_key (activeStrategy cfg) (valueParams cfg) (riskParams cfg)
              (d_ref d) sig) as [-> ->].
  intros Heq. rewrite (Hk sig Heq) in Happ. discriminate.
Qed.

(** X4: a position that both the state and the portfolio the risk filter
    reads hold under a key, and whose count has reached
    maxPositionPerMarket, is still there, unchanged, in both after any
    sequence of firings and renders run under that limit: the filter
    rejects every signal on the key, and only an approved signal on the key
    could close the position. *)
Theorem position_at_limit_is_never_closed (evs : list Event) (d : Dashboard)
  (k : string) (pos : Position) :
  positions (d_ref d) !! k = Some pos ->
  positions (portfolio (d_engine d)) !! k = Some pos ->
  Forall (fun ev => match ev with
                    | Fire i => maxPositionPerMarket (riskParams (ti_cfg i))
                                <= p_count pos
                    | Render => True
                    end) evs ->
  positions (portfolio (d_engine (runEvents evs d))) !! k = Some pos
  /\ positions (d_ref (runEvents evs d)) !! k = Some pos.
Proof.
  revert d. induction evs as [|ev evs IH]; intros d Href Hst Hall.
  { split; assumption. }
  inversion Hall as [|? ? Hev Hrest]; subst. cbn [runEvents foldl].
  fold (runEvents evs (step d ev)).
  apply IH; [| |exact Hrest].
  - destruct ev as [i|]; cbn [step]; [|exact Hst].
    destruct (fire_engine (ti_cfg i) (ti_markets i) (ti_rnd i) (ti_now i) d)
      as (_ & _ & _ & ->). exact Href.
  - destruct ev as [i|]; cbn [step]; [|exact Hst].
    rewrite <- Hst. apply fire_key_untouched.
    intros sig <-. now apply (checkSignal_at_position_limit _ _ _ _ _ pos).
Qed.

(** X4 (witness): after one market-maker firing and a render the YES
    position on RAIN-SIM has 2 contracts; under a limit of 2 two more
    firings leave it open. *)
Lemma position_at_limit_is_never_closed_witness :
  let d := render (fire mmConfig [M50] noRandom "12:00:00"
                     {| d_engine := initialEngine; d_ref := initialPortfolio |}) in
  let i := {| ti_cfg := {| activeStrategy := MM;
                           valueParams := valueParams defaultConfig;
                           mmParams := mmParams defaultConfig;
                           riskParams := {| maxPositionPerMarket := 2;
                                            maxExposure := 5000;
                                            maxDailyLoss := 1000 |} |};
              ti_markets := [M50]; ti_rnd := noRandom; ti_now := "12:00:03" |} in
  positions (d_ref d) !! "RAIN-SIM-YES"
  = Some {| p_side := YES; p_count := 2; p_avgPrice := 47; p_ticker := "RAIN-SIM";
            p_entryTime := "12:00:00" |}
  /\ positions (portfolio (d_engine (runEvents [Fire i; Fire i] d))) !! "RAIN-SIM-YES"
     = Some {| p_side := YES; p_count := 2; p_avgPrice := 47; p_ticker := "RAIN-SIM";
               p_entryTime := "12:00:00" |}.
Proof.
  cbv zeta.
  assert (Href : positions (d_ref (render (fire mmConfig [M50] noRandom "12:00:00"
                   {| d_engine := initialEngine; d_ref := initialPortfolio |})))
                 !! "RAIN-SIM-YES"
                 = Some {| p_side := YES; p_count := 2; p_avgPrice := 47;
                           p_ticker := "RAIN-SIM"; p_entryTime := "12:00:00" |})
    by reflexivity.
  split; [exact Href|].
  refine (proj1 (position_at_limit_is_never_closed _ _ _ _ Href Href _)).
  repeat constructor; vm_compute; discriminate.
Defined.

(** X5: a pass of the ledger changes the position of a key only if an
    approved signal of the pass has that key; and when no signal is approved
    it changes nothing but the equity curve, which gets one sample. *)
Theorem ledger_frame (ms : list Market) (checked : list Signal) (now : string)
  (prev : Portfolio) :
  (forall k,
      (forall sig, In sig checked -> s_status sig = Some APPROVED ->
                   posKey (s_ticker sig) (s_side sig) <> k) ->
      positions (updatePortfolio ms checked now prev) !! k = positions prev !! k)
  /\ ((forall sig, In sig checked -> s_status sig <> Some APPROVED) ->
      balance (updatePortfolio ms checked now prev) = balance prev
      /\ totalPnl (updatePortfolio ms checked now prev) = totalPnl prev
      /\ positions (updatePortfolio ms checked now prev) = positions prev
      /\ closedTrades (updatePortfolio ms checked now prev) = closedTrades prev
      /\ totalFees (updatePortfolio ms checked now prev) = totalFees prev
      /\ equityCurve (updatePortfolio ms checked now prev)
         = sliceLast 100 (equityCurve prev)
           ++ [totalPnl prev + unrealizedPnl ms (positions prev)]).
Proof.
  split.
  - intros k Hk. unfold updatePortfolio. cbn [positions].
    apply foldl_applySignal_other_keys, Forall_forall.
    intros s Hs. apply list_elem_of_In, filter_In in Hs. destruct Hs as [Hin Happ].
    apply Hk; [exact Hin|]. unfold isApproved in Happ.
    now apply bool_decide_eq_true in Happ.
  - intros Hnone.
    rewrite (updatePortfolio_none_approved ms checked now prev); [repeat split|].
    induction checked as [|s checked IH]; [reflexivity|]. cbn.
    destruct (isApproved s) eqn:Hs.
    + exfalso. apply (Hnone s); [now left|]. unfold isApproved in Hs.
      now apply bool_decide_eq_true in Hs.
    + apply IH. intros sig Hin. apply Hnone. now right.
Qed.

(** X5 (witness): a pass over one rejected quote on the portfolio holding a
    NO position. *)
Lemma ledger_frame_witness :
  positions (updatePortfolio [M50] [rejectWith yesQuote "Position limit"]
               "12:00:03" holdingNo) = positions holdingNo
  /\ balance (updatePortfolio [M50] [rejectWith yesQuote "Position limit"]
                "12:00:03" holdingNo) = balance holdingNo.
Proof.
  destruct (ledger_frame [M50] [rejectWith yesQuote "Position limit"] "12:00:03"
              holdingNo) as [_ H].
  destruct H as (Hb & _ & Hp & _).
  { intros sig [<-|[]]. discriminate. }
  split; [exact Hp | exact Hb].
Defined.

(** ** Opening and closing *)

(** X6: opening a position on a free key and then closing it with a second
    approved signal on the same key puts the positions map back exactly as
    it was; balance ends lower by both fees and by the purchase cost
    price * count, and higher only by the realized pnl: the cost paid at
    the open is not credited back at the close. *)
Theorem open_then_close (ms : list Market) (t1 t2 : string)
  (prev next : Portfolio) (sig1 sig2 : Signal) :
  positions next !! posKey (s_ticker sig1) (s_side sig1) = None ->
  s_ticker sig2 = s_ticker sig1 ->
  s_side sig2 = s_side sig1 ->
  let opened := applySignal ms t1 prev next sig1 in
  let closed := applySignal ms t2 prev opened sig2 in
  let pnl := (exitPriceOf ms sig2 - s_price sig1) * s_count sig1 in
  positions closed = positions next
  /\ totalPnl closed = totalPnl next + pnl
  /\ balance closed
     = balance next - fee (s_count sig1) (s_price sig1)
       - fee (s_count sig2) (s_price sig2)
       - s_price sig1 * s_count sig1 + pnl
  /\ totalFees closed
     = totalFees next + fee (s_count sig1) (s_price sig1)
       + fee (s_count sig2) (s_price sig2)
  /\ last (closedTrades closed)
     = Some {| t_ticker := s_ticker sig2; t_side := s_side sig2;
               t_entryPrice := s_price sig1;
               t_exitPrice := exitPriceOf ms sig2;
               t_count := s_count sig1; t_pnl := pnl; t_time := t2 |}.
Proof.
  intros Hfree Ht Hs. cbv zeta.
  assert (Hopen : positions (applySignal ms t1 prev next sig1)
                  !! posKey (s_ticker sig2) (s_side sig2)
                  = Some {| p_side := s_side sig1; p_count := s_count sig1;
                            p_avgPrice := s_price sig1; p_ticker := s_ticker sig1;
                            p_entryTime := t1 |}).
  { rewrite Ht, Hs. unfold applySignal. rewrite Hfree. cbn [positions].
    apply lookup_insert_eq. }
  unfold applySignal at 1 3 5 7 9. rewrite Hopen.
  cbn [balance totalPnl positions closedTrades totalFees p_avgPrice p_count].
  rewrite last_snoc, Ht, Hs.
  unfold applySignal. rewrite Hfree.
  cbn [balance totalPnl positions closedTrades totalFees].
  rewrite delete_insert_eq, (delete_id _ _ Hfree).
  repeat split; lia.
Qed.

(** X6 (witness): the market maker's YES quote on M50 bought and closed
    again at an unchanged mid of 50. *)
Lemma open_then_close_witness :
  positions initialPortfolio !! posKey (s_ticker yesFill) (s_side yesFill) = None
  /\ positions (applySignal [M50] "12:00:03" initialPortfolio
                  (applySignal [M50] "12:00:00" initialPortfolio initialPortfolio
                     yesFill) yesFill) = ∅
  /\ balance (applySignal [M50] "12:00:03" initialPortfolio
                (applySignal [M50] "12:00:00" initialPortfolio initialPortfolio
                   yesFill) yesFill) = 10000 - 4 - 4 - 94 + 6.
Proof.
  assert (Hfree : positions initialPortfolio
                  !! posKey (s_ticker yesFill) (s_side yesFill) = None)
    by reflexivity.
  split; [exact Hfree|].
  destruct (open_then_close [M50] "12:00:00" "12:00:03" initialPortfolio
              initialPortfolio yesFill yesFill Hfree eq_refl eq_refl)
    as (Hp & _ & Hb & _).
  split; [exact Hp | rewrite Hb; reflexivity].
Defined.

(** ** The risk filter applied twice *)

(** X7: checking a signal that has already been checked, against the same
    parameters and portfolio, returns it unchanged, so filtering a list
    twice gives the verdicts of filtering it once. *)
Theorem checkSignal_idempotent (strat : Strategy) (vp : ValueParams)
  (rp : RiskParams) (pf : Portfolio) :
  (forall sig,
      checkSignal strat vp rp pf (checkSignal strat vp rp pf sig)
      = checkSignal strat vp rp pf sig)
  /\ forall sigs,
       map (checkSignal strat vp rp pf) (map (checkSignal strat vp rp pf) sigs)
       = map (checkSignal strat vp rp pf) sigs.
Proof.
  assert (H1 : forall sig,
             checkSignal strat vp rp pf (checkSignal strat vp rp pf sig)
             = checkSignal strat vp rp pf sig).
  { intros sig. unfold checkSignal at 2 3.
    destruct (maxExposure rp <? s_price sig * s_count sig) eqn:He.
    { unfold checkSignal. cbn. now rewrite He. }
    destruct (Qltb (s_confidence sig) (minConfidence vp)
              && negb (bool_decide (strat = MM))) eqn:Hc.
    { unfold checkSignal. cbn. now rewrite He, Hc. }
    destruct (atPositionLimit rp
                (positions pf !! posKey (s_ticker sig) (s_side sig))) eqn:Hp.
    { unfold checkSignal. cbn. now rewrite He, Hc, Hp. }
    destruct (maxDailyLoss rp <=? dailyLoss pf) eqn:Hl.
    { unfold checkSignal. cbn. now rewrite He, Hc, Hp, Hl. }
    unfold checkSignal. cbn. now rewrite He, Hc, Hp, Hl. }
  split; [exact H1|].
  intros sigs. rewrite map_map. apply map_ext. exact H1.
Qed.

(** ** Position keys *)

Lemma list_ascii_of_string_app (a b : string) :
  String.list_ascii_of_string (a +:+ b)
  = String.list_ascii_of_string a ++ String.list_ascii_of_string b.
Proof.
  induction a as [|c a IH]; [reflexivity|].
  change (String.list_ascii_of_string (String c (a +:+ b))
          = c :: (String.list_ascii_of_string a ++ String.list_ascii_of_string b)).
  cbn [String.list_ascii_of_string]. now rewrite IH.
Qed.

Lemma list_ascii_of_string_inj (a b : string) :
  String.list_ascii_of_string a = String.list_ascii_of_string b -> a = b.
Proof.
  intros H. rewrite <- (String.string_of_list_ascii_of_string a),
              <- (String.string_of_list_ascii_of_string b). now rewrite H.
Qed.

(** X8: two positions share a key only if they have the same ticker and
    the same side, whatever characters the tickers contain. *)
Theorem posKey_injective (t1 t2 : string) (s1 s2 : Side) :
  posKey t1 s1 = posKey t2 s2 -> t1 = t2 /\ s1 = s2.
Proof.
  unfold posKey. intros H. apply (f_equal String.list_ascii_of_string) in H.
  rewrite !list_ascii_of_string_app in H.
  destruct s1, s2; cbn in H.
  - apply app_inj_2 in H; [|reflexivity]. destruct H as [H _].
    split; [now apply list_ascii_of_string_inj | reflexivity].
  - apply (f_equal last) in H. rewrite !last_app in H. discriminate.
  - apply (f_equal last) in H. rewrite !last_app in H. discriminate.
  - apply app_inj_2 in H; [|reflexivity]. destruct H as [H _].
    split; [now apply list_ascii_of_string_inj | reflexivity].
Qed.

(** X8 (witness): a ticker that itself ends in "-YES". *)
Lemma posKey_injective_witness :
  posKey "A-YES" NO = posKey "A-YES" NO /\ "A-YES" = "A-YES" /\ NO = NO.
Proof.
  split; [reflexivity|].
  exact (posKey_injective "A-YES" "A-YES" NO NO eq_refl).
Defined.

Lemma applySignal_keys_consistent ms now prev next sig :
  (forall k pos, positions next !! k = Some pos ->
                 k = posKey (p_ticker pos) (p_side pos)) ->
  forall k pos, positions (applySignal ms now prev next sig) !! k = Some pos ->
                k = posKey (p_ticker pos) (p_side pos).
Proof.
  intros Hinv k pos. unfold applySignal.
  destruct (positions next !! posKey (s_ticker sig) (s_side sig)) eqn:He;
    cbn [positions].
  - intros Hk. apply lookup_delete_Some in Hk. destruct Hk as [_ Hk]. now apply Hinv.
  - intros Hk. apply lookup_insert_Some in Hk.
    destruct Hk as [[<- <-]|[_ Hk]]; [reflexivity | now apply Hinv].
Qed.

(** X9: in every reachable state each open position is filed under the key
    of its own ticker and side, so there is at most one open position per
    (ticker, side) and the filter's lookup by key finds exactly the
    position a signal would close. *)
Theorem reachable_positions_keyed (e : Engine) :
  reachable e ->
  forall k pos, positions (portfolio e) !! k = Some pos ->
                k = posKey (p_ticker pos) (p_side pos).
Proof.
  induction 1 as [|cfg ms rnd now e Hr IH|e Hr _]; intros k pos.
  - cbn. rewrite lookup_empty. discriminate.
  - rewrite portfolio_tick. unfold updatePortfolio. cbn [positions].
    generalize (List.filter isApproved (signals (tick cfg ms rnd now e))).
    intros sigs. revert k pos.
    assert (Hgen : forall next,
               (forall k pos, positions next !! k = Some pos ->
                              k = posKey (p_ticker pos) (p_side pos)) ->
               forall k pos,
                 positions (foldl (applySignal ms now (portfolio e)) next sigs) !! k
                 = Some pos -> k = posKey (p_ticker pos) (p_side pos)).
    { induction sigs as [|sig sigs IHs]; intros next Hn; [exact Hn|].
      cbn [foldl]. apply IHs. now apply applySignal_keys_consistent. }
    exact (Hgen (portfolio e) IH).
  - cbn. rewrite lookup_empty. discriminate.
Qed.

(** X9 (witness): the position held after one market-maker tick. *)
Lemma reachable_positions_keyed_witness :
  reachable (tick mmConfig [M50] noRandom "12:00:00" initialEngine)
  /\ positions (portfolio (tick mmConfig [M50] noRandom "12:00:00" initialEngine))
     !! "RAIN-SIM-NO"
     = Some {| p_side := NO; p_count := 2; p_avgPrice := 47; p_ticker := "RAIN-SIM";
               p_entryTime := "12:00:00" |}
  /\ "RAIN-SIM-NO" = posKey "RAIN-SIM" NO.
Proof.
  assert (Hr : reachable (tick mmConfig [M50] noRandom "12:00:00" initialEngine))
    by (constructor; constructor).
  split; [exact Hr|]. split; [reflexivity|].
  exact (reachable_positions_keyed _ Hr "RAIN-SIM-NO" _ eq_refl).
Defined.

(** ** More on the strategy evaluators *)

Lemma inject_Z_100_minus (z : Z) : inject_Z (100 - z) = (100 + - inject_Z z)%Q.
Proof. unfold Z.sub. now rewrite inject_Z_plus, inject_Z_opp. Qed.

(** What a signal of the value strategy looks like, side by side. *)
Lemma valueSignals_In market params fair sig :
  In sig (valueSignals market params fair) ->
  s_ticker sig = m_ticker market /\ s_action sig = BUY
  /\ s_count sig = Z.min (maxContracts params) 3
  /\ s_status sig = None
  /\ (inject_Z (threshold params) <= s_edge sig)%Q
  /\ s_confidence sig = Qmin (s_edge sig / 100) 1
  /\ (minConfidence params <= s_confidence sig)%Q
  /\ ((s_side sig = YES /\ s_price sig = m_yesAsk market + 1
       /\ s_edge sig = (fair - inject_Z (m_yesAsk market))%Q)
      \/ (s_side sig = NO /\ s_price sig = 100 - m_yesBid market + 1
          /\ s_edge sig = (100 - fair - inject_Z (100 - m_yesBid market))%Q)).
Proof.
  unfold valueSignals. intros Hin. apply in_app_or in Hin.
  destruct Hin as [Hin|Hin].
  - destruct (Qle_bool (inject_Z (threshold params)) _) eqn:Ht; [|destruct Hin].
    destruct (Qle_bool (minConfidence params) _) eqn:Hc; [|destruct Hin].
    destruct Hin as [<-|[]]. cbn.
    apply Qle_bool_iff in Ht. apply Qle_bool_iff in Hc.
    repeat split; try assumption. left. repeat split.
  - destruct (Qle_bool (inject_Z (threshold params)) _) eqn:Ht; [|destruct Hin].
    destruct (Qle_bool (minConfidence params) _) eqn:Hc; [|destruct Hin].
    destruct Hin as [<-|[]]. cbn.
    apply Qle_bool_iff in Ht. apply Qle_bool_iff in Hc.
    repeat split; try assumption. right. repeat split.
Qed.

(** X10: every signal of the value strategy buys at most 3 and at most
    maxContracts contracts, has an edge of at least the threshold and a
    confidence min(edge/100, 1) between minConfidence and 1, and is priced
    one cent above the ask of its side (yesAsk, or 100 - yesBid for NO). *)
Theorem value_signal_bounds (market : Market) (params : ValueParams) (fair : Q)
  (sig : Signal) :
  In sig (valueSignals market params fair) ->
  s_count sig <= 3 /\ s_count sig <= maxContracts params
  /\ (inject_Z (threshold params) <= s_edge sig)%Q
  /\ (minConfidence params <= s_confidence sig <= 1)%Q
  /\ (s_confidence sig <= s_edge sig / 100)%Q
  /\ s_price sig = match s_side sig with
                   | YES => m_yesAsk market + 1
                   | NO => (100 - m_yesBid market) + 1
                   end.
Proof.
  intros Hin. apply valueSignals_In in Hin.
  destruct Hin as (_ & _ & Hc & _ & Ht & Hconf & Hmin & Hside).
  rewrite Hc, Hconf. rewrite Hconf in Hmin.
  repeat split; try lia; try assumption.
  - apply Q.le_min_r.
  - apply Q.le_min_l.
  - destruct Hside as [(-> & -> & _)|(-> & -> & _)]; reflexivity.
Qed.

(** X10 (witness): the YES signal on T1 at fair = 60 under minConfidence 0.05. *)
Lemma value_signal_bounds_witness :
  exists sig, In sig (valueSignals T1 lowValue 60)
              /\ s_count sig <= 3 /\ s_price sig = 51.
Proof.
  eexists. split; [left; reflexivity|].
  match goal with
  | |- s_count ?s <= 3 /\ _ =>
      destruct (value_signal_bounds T1 lowValue 60 s (or_introl eq_refl))
        as (Hc & _ & _ & _ & _ & Hp)
  end.
  split; [exact Hc | exact Hp].
Defined.

(** X11: on a market whose bid is not above its ask, with a positive
    threshold, the value strategy returns at most one signal: the YES and
    the NO side cannot both be undervalued by the threshold. *)
Theorem value_sides_exclusive (market : Market) (params : ValueParams) (fair : Q) :
  m_yesBid market <= m_yesAsk market ->
  0 < threshold params ->
  (length (valueSignals market params fair) <= 1)%nat.
Proof.
  intros Hq Ht. unfold valueSignals. rewrite length_app.
  destruct (Qle_bool (inject_Z (threshold params))
              (fair - inject_Z (m_yesAsk market))) eqn:Hy.
  - destruct (Qle_bool (inject_Z (threshold params))
                (100 - fair - inject_Z (100 - m_yesBid market))) eqn:Hn.
    + exfalso. apply Qle_bool_iff in Hy. apply Qle_bool_iff in Hn.
      rewrite inject_Z_100_minus in Hn.
      rewrite Zle_Qle in Hq. rewrite Zlt_Qlt in Ht.
      change (inject_Z 0) with 0%Q in Ht. lra.
    + destruct (Qle_bool (minConfidence params) _); cbn; lia.
  - destruct (Qle_bool (inject_Z (threshold params))
                (100 - fair - inject_Z (100 - m_yesBid market)));
      [destruct (Qle_bool (minConfidence params) _)|]; cbn; lia.
Qed.

(** X11 (witness): T1 (bid 40, ask 50) under the default threshold 8. *)
Lemma value_sides_exclusive_witness :
  m_yesBid T1 <= m_yesAsk T1 /\ 0 < threshold lowValue
  /\ (length (valueSignals T1 lowValue 30) <= 1)%nat.
Proof.
  assert (H1 : m_yesBid T1 <= m_yesAsk T1) by (vm_compute; discriminate).
  assert (H2 : 0 < threshold lowValue) by reflexivity.
  split; [exact H1|]. split; [exact H2|].
  exact (value_sides_exclusive T1 lowValue 30 H1 H2).
Defined.

Lemma evaluateValueStrategy_edge market params rnd sig :
  (0 <= rnd)%Q -> (rnd < 1)%Q ->
  m_yesBid market <= m_mid market <= m_yesAsk market ->
  In sig (evaluateValueStrategy market params rnd) ->
  (s_edge sig <= 15 # 2)%Q.
Proof.
  intros H0 H1 [Hb Ha] Hin. unfold evaluateValueStrategy in Hin.
  apply valueSignals_In in Hin.
  destruct Hin as (_ & _ & _ & _ & _ & _ & _ & Hside).
  rewrite Zle_Qle in Hb, Ha.
  destruct Hside as [(_ & _ & ->)|(_ & _ & ->)].
  - lra.
  - rewrite inject_Z_100_minus. lra.
Qed.

Lemma no_elements_nil {A} (l : list A) : (forall x, In x l -> False) -> l = [].
Proof. destruct l as [|x l]; [reflexivity|]. intros H. destruct (H x). now left. Qed.

(** X12: with a draw of Math.random (0 <= rnd < 1) and a market whose mid
    lies between its bid and its ask, no value signal has an edge above 7.5
    cents or a confidence above 0.075; so under a threshold of 8 or more,
    or a minConfidence above 0.075 (the defaults are 8 and 0.3), the value
    strategy returns nothing for that market. *)
Theorem value_strategy_edge_capped (market : Market) (params : ValueParams)
  (rnd : Q) :
  (0 <= rnd)%Q -> (rnd < 1)%Q ->
  m_yesBid market <= m_mid market <= m_yesAsk market ->
  (forall sig, In sig (evaluateValueStrategy market params rnd) ->
     (s_edge sig <= 15 # 2)%Q /\ (s_confidence sig <= 3 # 40)%Q)
  /\ (8 <= threshold params -> evaluateValueStrategy market params rnd = [])
  /\ ((3 # 40 < minConfidence params)%Q ->
      evaluateValueStrategy market params rnd = []).
Proof.
  intros H0 H1 Hq.
  assert (Hcap : forall sig, In sig (evaluateValueStrategy market params rnd) ->
                   (s_edge sig <= 15 # 2)%Q /\ (s_confidence sig <= 3 # 40)%Q).
  { intros sig Hin.
    pose proof (evaluateValueStrategy_edge _ _ _ _ H0 H1 Hq Hin) as He.
    split; [exact He|].
    apply valueSignals_In in Hin.
    destruct Hin as (_ & _ & _ & _ & _ & -> & _).
    apply Qle_trans with (s_edge sig / 100)%Q; [apply Q.le_min_l|].
    apply Qle_trans with ((15 # 2) / 100)%Q; [|vm_compute; discriminate].
    apply Qmult_le_compat_r; [exact He | vm_compute; discriminate]. }
  split; [exact Hcap|]. split.
  - intros Ht. apply no_elements_nil. intros sig Hin.
    destruct (Hcap sig Hin) as [He _].
    apply valueSignals_In in Hin.
    destruct Hin as (_ & _ & _ & _ & Hth & _).
    rewrite Zle_Qle in Ht. change (inject_Z 8) with 8%Q in Ht. lra.
  - intros Hm. apply no_elements_nil. intros sig Hin.
    destruct (Hcap sig Hin) as [_ Hc].
    apply valueSignals_In in Hin.
    destruct Hin as (_ & _ & _ & _ & _ & _ & Hmin & _). lra.
Qed.

(** X12 (witness): M50 (bid 47, mid 50, ask 53) at the draw 0.9. *)
Lemma value_strategy_edge_capped_witness :
  (0 <= 9 # 10)%Q /\ (9 # 10 < 1)%Q
  /\ m_yesBid M50 <= m_mid M50 <= m_yesAsk M50
  /\ evaluateValueStrategy M50 (valueParams defaultConfig) (9 # 10) = [].
Proof.
  assert (H0 : (0 <= 9 # 10)%Q) by (vm_compute; discriminate).
  assert (H1 : (9 # 10 < 1)%Q) by reflexivity.
  assert (Hq : m_yesBid M50 <= m_mid M50 <= m_yesAsk M50)
    by (split; vm_compute; discriminate).
  split; [exact H0|]. split; [exact H1|]. split; [exact Hq|].
  destruct (value_strategy_edge_capped M50 (valueParams defaultConfig) (9 # 10)
              H0 H1 Hq) as (_ & H & _).
  apply H. vm_compute. discriminate.
Defined.

Lemma findMarket_Some t ms m :
  findMarket t ms = Some m -> In m ms /\ m_ticker m = t.
Proof.
  induction ms as [|m0 ms IH]; [discriminate|]. cbn.
  destruct (String.eqb_spec (m_ticker m0) t) as [He|He].
  - intros [= <-]. split; [now left | exact He].
  - intros H. destruct (IH H) as [Hin Ht]. split; [now right | exact Ht].
Qed.

Lemma findMarket_In m ms :
  In m ms -> exists m', findMarket (m_ticker m) ms = Some m'.
Proof.
  induction ms as [|m0 ms IH]; [intros []|]. intros Hin. cbn.
  destruct (String.eqb_spec (m_ticker m0) (m_ticker m)) as [He|He].
  - now exists m0.
  - destruct Hin as [->|Hin]; [contradiction | now apply IH].
Qed.

(** X13: when neither quote is clamped at 1 (1 <= mid - half and
    1 <= 100 - mid - half, with half = floor(spread/2) >= 0) the two
    market-maker quotes together cost 100 - 2*half per contract, and each is
    priced exactly half below the price the ledger closes it at while the
    market stays where it is; a clamped quote is still at least 1 cent. *)
Theorem market_maker_quotes_half_below_exit (market : Market) (params : MMParams)
  (ms : list Market) :
  0 <= spread params ->
  1 <= m_mid market - spread params / 2 ->
  1 <= 100 - m_mid market - spread params / 2 ->
  findMarket (m_ticker market) ms = Some market ->
  (forall q, In q (evaluateMMStrategy market params) ->
     1 <= s_price q
     /\ exitPriceOf ms q = s_price q + spread params / 2)
  /\ exists yes no,
       evaluateMMStrategy market params = [yes; no]
       /\ s_price yes + s_price no = 100 - 2 * (spread params / 2).
Proof.
  intros Hs Hy Hn Hf.
  assert (Hh : 0 <= spread params / 2) by (apply Z.div_pos; lia).
  split.
  - intros q [<-|[<-|[]]]; unfold exitPriceOf, midOrPrice; cbn;
      rewrite Hf; (destruct (Z.eqb_spec (m_mid market) 0); [lia|]); lia.
  - eexists _, _. split; [reflexivity|]. cbn. lia.
Qed.

(** X13 (witness): M50 with the default spread 6: both quotes at 47, closed
    at 50. *)
Lemma market_maker_quotes_half_below_exit_witness :
  0 <= spread (mmParams defaultConfig)
  /\ findMarket (m_ticker M50) [M50] = Some M50
  /\ exitPriceOf [M50] yesQuote = s_price yesQuote + 3.
Proof.
  assert (H0 : 0 <= spread (mmParams defaultConfig)) by (vm_compute; discriminate).
  assert (Hf : findMarket (m_ticker M50) [M50] = Some M50) by reflexivity.
  split; [exact H0|]. split; [exact Hf|].
  destruct (market_maker_quotes_half_below_exit M50 (mmParams defaultConfig) [M50]
              H0) as [H _]; [vm_compute; discriminate .. | exact Hf |].
  exact (proj2 (H yesQuote yesQuote_emitted)).
Defined.

(** X14: every signal a tick checks names a market of the snapshot the
    tick ran on, so the ledger's lookup of that market never comes back
    empty; and when that market's mid is not 0, a position the signal
    closes is closed at mid (YES) or 100 - mid (NO), never at the signal's
    own price. *)
Theorem tick_signals_have_markets (cfg : Config) (ms : list Market)
  (rnd : nat -> Q) (now : string) (e : Engine) (sig : Signal) :
  In sig (signals (tick cfg ms rnd now e)) ->
  exists m, In m ms /\ m_ticker m = s_ticker sig
            /\ findMarket (s_ticker sig) ms = Some m
            /\ (m_mid m <> 0 ->
                exitPriceOf ms sig
                = match s_side sig with YES => m_mid m | NO => 100 - m_mid m end).
Proof.
  intros Hin. rewrite signals_tick in Hin.
  apply in_map_iff in Hin. destruct Hin as (raw & <- & Hin).
  destruct (checkSignal_key (activeStrategy cfg) (valueParams cfg) (riskParams cfg)
              (portfolio e) raw) as [Ht Hs].
  assert (Hm : exists m0, In m0 ms /\ s_ticker raw = m_ticker m0).
  { apply generateSignals_origin in Hin.
    destruct Hin as [(_ & m0 & r & Hm0 & Hraw)|(_ & m0 & Hm0 & Hraw)].
    - exists m0. split; [exact Hm0|]. now apply valueSignals_In in Hraw.
    - exists m0. split; [exact Hm0|]. now destruct Hraw as [<-|[<-|[]]]. }
  destruct Hm as (m0 & Hm0 & Hraw).
  destruct (findMarket_In m0 ms Hm0) as (m & Hf).
  destruct (findMarket_Some _ _ _ Hf) as [Hmin Hmt].
  exists m. rewrite Ht, Hraw. repeat split; try assumption.
  intros Hmid. rewrite <- Hraw, <- Ht in Hf.
  now apply exitPriceOf_found.
Qed.

(** X14 (witness): the first signal of a market-maker tick on M50. *)
Lemma tick_signals_have_markets_witness :
  In yesFill (signals (tick mmConfig [M50] noRandom "12:00:00" initialEngine))
  /\ exists m, findMarket (s_ticker yesFill) [M50] = Some m.
Proof.
  assert (Hin : In yesFill (signals (tick mmConfig [M50] noRandom "12:00:00"
                                       initialEngine)))
    by (left; reflexivity).
  split; [exact Hin|].
  destruct (tick_signals_have_markets _ _ _ _ _ _ Hin) as (m & _ & _ & Hf & _).
  exists m. exact Hf.
Defined.

(** ** Fees on the range of the sliders *)

Lemma fee_range_table :
  forallb (fun c =>
     forallb (fun p =>
        (exactFee c p <=? fee c p) && (fee c p <=? exactFee c p + 1)
        && (fee c p =? fee c (100 - p))
        && (0 <=? fee c p) && (fee c p <=? fee c 50) && (fee c 50 <=? 2 * c)
        && (fee c p <=? fee (c + 1) p))
       (seqZ 0 101))
    (seqZ 1 20) = true.
Proof. vm_compute. reflexivity. Qed.

(** X15: for 1 to 20 contracts at a price from 0 to 100 cents, the fee the
    code charges is never negative, is the exact ceiling of
    0.07 * count * p * (1 - p) * 100 or one cent above it, is the same at
    price p and at 100 - p, is largest at 50 cents where it is at most
    2 cents per contract, and does not fall when a contract is added. *)
Theorem fee_on_slider_range (count price : Z) :
  1 <= count <= 20 -> 0 <= price <= 100 ->
  exactFee count price <= fee count price <= exactFee count price + 1
  /\ fee count price = fee count (100 - price)
  /\ 0 <= fee count price <= fee count 50
  /\ fee count 50 <= 2 * count
  /\ fee count price <= fee (count + 1) price.
Proof.
  intros Hc Hp. pose proof fee_range_table as Htab.
  rewrite forallb_forall in Htab.
  assert (Hcin : In count (seqZ 1 20)) by (apply list_elem_of_In, elem_of_seqZ; lia).
  specialize (Htab count Hcin). rewrite forallb_forall in Htab.
  assert (Hpin : In price (seqZ 0 101)) by (apply list_elem_of_In, elem_of_seqZ; lia).
  specialize (Htab price Hpin).
  repeat (apply andb_prop in Htab; destruct Htab as [Htab ?]).
  repeat match goal with
         | H : (_ <=? _) = true |- _ => apply Z.leb_le in H
         | H : (_ =? _) = true |- _ => apply Z.eqb_eq in H
         end.
  lia.
Qed.

(** X15 (witness): 4 contracts at 50 cents, where rounding adds the cent. *)
Lemma fee_on_slider_range_witness :
  1 <= 4 <= 20 /\ 0 <= 50 <= 100
  /\ exactFee 4 50 <= fee 4 50 <= exactFee 4 50 + 1
  /\ fee 4 50 <= 2 * 4.
Proof.
  assert (Hc : 1 <= 4 <= 20) by lia.
  assert (Hp : 0 <= 50 <= 100) by lia.
  split; [exact Hc|]. split; [exact Hp|].
  destruct (fee_on_slider_range 4 50 Hc Hp) as (Hex & _ & _ & Hmax & _).
  split; [exact Hex | exact Hmax].
Defined.

(** ** Parsing the live feed *)

Lemma roundQ_mono (x y : Q) : (x <= y)%Q -> roundQ x <= roundQ y.
Proof. intros H. unfold roundQ. apply Qfloor_resp_le. lra. Qed.

Lemma roundQ_inject_Z (z : Z) : roundQ (inject_Z z) = z.
Proof.
  unfold roundQ.
  pose proof (Qfloor_le (inject_Z z + (1 # 2))) as Hle.
  pose proof (Qlt_floor (inject_Z z + (1 # 2))) as Hlt.
  set (f := Qfloor (inject_Z z + (1 # 2))) in *.
  rewrite inject_Z_plus in Hlt. change (inject_Z 1) with 1%Q in Hlt.
  assert (H1 : (inject_Z f < inject_Z (z + 1))%Q).
  { rewrite inject_Z_plus. change (inject_Z 1) with 1%Q. lra. }
  assert (H2 : (inject_Z z < inject_Z (f + 1))%Q).
  { rewrite inject_Z_plus. change (inject_Z 1) with 1%Q. lra. }
  rewrite <- Zlt_Qlt in H1, H2. lia.
Qed.

(** [Math.round] of a half-integer sum: the mean, halves upwards. *)
Lemma roundQ_half (n : Z) : roundQ (inject_Z n / 2) = (n + 1) / 2.
Proof.
  unfold roundQ.
  change (inject_Z n / 2)%Q with (inject_Z n * (1 # 2))%Q.
  pose proof (Qfloor_le (inject_Z n * (1 # 2) + (1 # 2))) as Hle.
  pose proof (Qlt_floor (inject_Z n * (1 # 2) + (1 # 2))) as Hlt.
  set (f := Qfloor (inject_Z n * (1 # 2) + (1 # 2))) in *.
  rewrite inject_Z_plus in Hlt. change (inject_Z 1) with 1%Q in Hlt.
  assert (H1 : (inject_Z (2 * f) <= inject_Z (n + 1))%Q).
  { rewrite inject_Z_mult, inject_Z_plus.
    change (inject_Z 2) with 2%Q. change (inject_Z 1) with 1%Q. lra. }
  assert (H2 : (inject_Z (n + 1) < inject_Z (2 * (f + 1)))%Q).
  { rewrite inject_Z_mult, !inject_Z_plus.
    change (inject_Z 2) with 2%Q. change (inject_Z 1) with 1%Q. lra. }
  rewrite <- Zle_Qle in H1. rewrite <- Zlt_Qlt in H2.
  clearbody f. apply Z.div_unique with (n + 1 - 2 * f); lia.
Qed.

Lemma orZ_nonzero (a b : Z) : b <> 0 -> orZ a b <> 0.
Proof. intros Hb. unfold orZ. destruct (Z.eqb_spec a 0); lia. Qed.

(** X16: a market with bids on both sides of its book, the best YES bid at
    least 1 and not above the ask 100 - best NO bid, is parsed with
    yesBid = best YES bid, yesAsk = 100 - best NO bid, noBid = best NO bid
    again, noAsk = 100 - best YES bid, spread = yesAsk - yesBid, and mid the
    mean of bid and ask rounded half up, which lies between them. *)
Theorem parseMarket_two_sided (orderbooks : gmap string Orderbook)
  (m : RawMarket) (ob : Orderbook) (bid qb nb qn : Z)
  (yesRest noRest : list (Z * Z)) :
  orderbooks !! r_ticker m = Some ob ->
  ob_yes ob = Some ((bid, qb) :: yesRest) ->
  ob_no ob = Some ((nb, qn) :: noRest) ->
  1 <= bid <= 100 - nb ->
  let parsed := parseMarket orderbooks m in
  m_yesBid parsed = bid /\ m_yesAsk parsed = 100 - nb
  /\ m_noBid parsed = nb /\ m_noAsk parsed = 100 - bid
  /\ m_spread parsed = 100 - nb - bid
  /\ m_mid parsed = (bid + (100 - nb) + 1) / 2
  /\ m_yesBid parsed <= m_mid parsed <= m_yesAsk parsed.
Proof.
  intros Hob Hy Hn Hq. cbv zeta. unfold parseMarket.
  rewrite Hob. cbv zeta. cbn -[Z.add Z.sub Z.max Z.eqb roundQ orZ inject_Z Qdiv].
  rewrite Hy, Hn. cbn -[Z.add Z.sub Z.max Z.eqb roundQ orZ inject_Z Qdiv].
  unfold orZ.
  destruct (Z.eqb_spec bid 0) as [?|_]; [lia|].
  destruct (Z.eqb_spec (100 - nb) 0) as [?|_]; [lia|].
  cbn [negb andb].
  rewrite roundQ_half.
  pose proof (Z.div_mod (bid + (100 - nb) + 1) 2 ltac:(lia)).
  pose proof (Z.mod_pos_bound (bid + (100 - nb) + 1) 2 ltac:(lia)).
  repeat split; lia.
Qed.

(** X16 (witness): YES bid 40, NO bid 55, so ask 45 and mid 43. *)
Lemma parseMarket_two_sided_witness :
  ({[ "KXRAIN" := rainBook ]} : gmap string Orderbook) !! r_ticker rawRain
  = Some rainBook
  /\ 1 <= 40 <= 100 - 55
  /\ m_mid (parseMarket {[ "KXRAIN" := rainBook ]} rawRain) = 43
  /\ m_noBid (parseMarket {[ "KXRAIN" := rainBook ]} rawRain) = 55.
Proof.
  assert (Hob : ({[ "KXRAIN" := rainBook ]} : gmap string Orderbook)
                !! r_ticker rawRain = Some rainBook) by reflexivity.
  assert (Hq : 1 <= 40 <= 100 - 55) by lia.
  split; [exact Hob|]. split; [exact Hq|].
  destruct (parseMarket_two_sided {[ "KXRAIN" := rainBook ]} rawRain rainBook
              40 10 55 5 [(39, 25)] [] Hob eq_refl eq_refl Hq)
    as (_ & _ & Hnb & _ & _ & Hmid & _).
  split; [rewrite Hmid; reflexivity | exact Hnb].
Defined.

(** X17: a market that has no entry in [orderbooks] is parsed around its
    last price, or around 50 when that is missing or 0: mid is that price,
    never 0, the YES quote is mid - 2 / mid + 2, the NO quote 98 - mid /
    102 - mid, and the spread field is 0 although the quote is 4 wide. *)
Theorem parseMarket_without_book (orderbooks : gmap string Orderbook)
  (m : RawMarket) :
  orderbooks !! r_ticker m = None ->
  let parsed := parseMarket orderbooks m in
  m_mid parsed = orZ (default 0 (r_last_price m)) 50
  /\ m_mid parsed <> 0
  /\ (r_last_price m = None \/ r_last_price m = Some 0 -> m_mid parsed = 50)
  /\ m_yesBid parsed = m_mid parsed - 2 /\ m_yesAsk parsed = m_mid parsed + 2
  /\ m_noBid parsed = 98 - m_mid parsed /\ m_noAsk parsed = 102 - m_mid parsed
  /\ m_spread parsed = 0
  /\ m_ticker parsed = r_ticker m.
Proof.
  intros Hob. cbv zeta. unfold parseMarket. rewrite Hob.
  cbn -[orZ Z.sub Z.add].
  change (orZ 0 ?b) with b.
  repeat split; try lia.
  - apply orZ_nonzero. lia.
  - intros [->| ->]; reflexivity.
Qed.

(** X17 (witness): KXRAIN, last price 44, with an empty set of books. *)
Lemma parseMarket_without_book_witness :
  (∅ : gmap string Orderbook) !! r_ticker rawRain = None
  /\ m_mid (parseMarket ∅ rawRain) = 44
  /\ m_yesBid (parseMarket ∅ rawRain) = 42
  /\ m_title (parseMarket ∅ rawRain) = "Rain in LA".
Proof.
  assert (Hob : (∅ : gmap string Orderbook) !! r_ticker rawRain = None)
    by reflexivity.
  split; [exact Hob|].
  destruct (parseMarket_without_book ∅ rawRain Hob) as (Hmid & _ & _ & Hb & _).
  split; [rewrite Hmid; reflexivity|].
  split; [rewrite Hb, Hmid; reflexivity | reflexivity].
Defined.

Lemma parseMarket_mid_nonzero orderbooks m :
  (forall ob, orderbooks !! r_ticker m = Some ob -> bookInRange ob) ->
  m_mid (parseMarket orderbooks m) <> 0.
Proof.
  intros Hr. unfold parseMarket. cbn [m_mid].
  destruct (orderbooks !! r_ticker m) as [ob|] eqn:Hob.
  2: { cbn. apply orZ_nonzero. lia. }
  change (default {| ob_yes := None; ob_no := None |} (Some ob)) with ob.
  destruct (Hr ob eq_refl) as [Hy Hn].
  destruct (negb (bestBid (default [] (ob_yes ob)) =? 0)
            && negb (match default [] (ob_no ob) with
                     | [] => 0 | _ :: _ => 100 - bestBid (default [] (ob_no ob))
                     end =? 0)) eqn:Hboth.
  2: { apply orZ_nonzero. lia. }
  apply andb_prop in Hboth. destruct Hboth as [Hb Ha].
  apply negb_true_iff, Z.eqb_neq in Hb. apply negb_true_iff, Z.eqb_neq in Ha.
  rewrite roundQ_half.
  destruct (default [] (ob_yes ob)) as [|[bid qb] yr]; [cbn in Hb; lia|].
  destruct (default [] (ob_no ob)) as [|[nb qn] nr]; [lia|].
  cbn [bestBid] in *.
  inversion Hy as [|? ? Hbid _]; inversion Hn as [|? ? Hnb _]; subst.
  cbn in Hbid, Hnb.
  pose proof (Z.div_mod (bid + (100 - nb) + 1) 2 ltac:(lia)).
  pose proof (Z.mod_pos_bound (bid + (100 - nb) + 1) 2 ltac:(lia)).
  lia.
Qed.

(** X18: parsing keeps the markets and their order, ticker by ticker, and
    states the NO quote as the complement of the YES quote; and when every
    bid of every book is priced between 0 and 100, no parsed market has a
    mid of 0, so the ledger never takes a signal's price for the mid of a
    market that came from the feed. *)
Theorem parseMarkets_well_formed (rawMarkets : list RawMarket)
  (orderbooks : gmap string Orderbook) :
  map m_ticker (parseMarkets rawMarkets orderbooks) = map r_ticker rawMarkets
  /\ Forall (fun m => m_noBid m = 100 - m_yesAsk m
                      /\ m_noAsk m = 100 - m_yesBid m /\ 0 <= m_spread m)
            (parseMarkets rawMarkets orderbooks)
  /\ ((forall t ob, orderbooks !! t = Some ob -> bookInRange ob) ->
      Forall (fun m => m_mid m <> 0) (parseMarkets rawMarkets orderbooks)
      /\ forall (sig : Signal) m,
           findMarket (s_ticker sig) (parseMarkets rawMarkets orderbooks) = Some m ->
           midOrPrice (parseMarkets rawMarkets orderbooks) sig = m_mid m).
Proof.
  unfold parseMarkets. split; [|split].
  - rewrite map_map. apply map_ext. reflexivity.
  - apply Forall_forall. intros m Hin.
    apply list_elem_of_In, in_map_iff in Hin. destruct Hin as (raw & <- & _).
    unfold parseMarket. cbn [m_noBid m_yesAsk m_noAsk m_yesBid m_spread].
    repeat split. apply Z.le_max_l.
  - intros Hr.
    assert (Hall : Forall (fun m => m_mid m <> 0)
                     (map (parseMarket orderbooks) rawMarkets)).
    { apply Forall_forall. intros m Hin.
      apply list_elem_of_In, in_map_iff in Hin. destruct Hin as (raw & <- & _).
      apply parseMarket_mid_nonzero. intros ob Hob. exact (Hr _ _ Hob). }
    split; [exact Hall|]. intros sig m Hf.
    apply midOrPrice_found; [exact Hf|].
    destruct (findMarket_Some _ _ _ Hf) as [Hin _].
    rewrite Forall_forall in Hall. apply Hall. now apply list_elem_of_In.
Qed.

(** X18 (witness): KXRAIN parsed against its book, then looked up by a
    signal on that ticker. *)
Lemma parseMarkets_well_formed_witness :
  map m_ticker (parseMarkets [rawRain] {[ "KXRAIN" := rainBook ]}) = ["KXRAIN"]
  /\ Forall (fun m => m_noBid m = 100 - m_yesAsk m
                      /\ m_noAsk m = 100 - m_yesBid m /\ 0 <= m_spread m)
            (parseMarkets [rawRain] {[ "KXRAIN" := rainBook ]}).
Proof.
  destruct (parseMarkets_well_formed [rawRain] {[ "KXRAIN" := rainBook ]})
    as (Ht & Hc & _).
  split; [exact Ht | exact Hc].
Defined.

(** ** The simulated feed *)

Lemma roundQ_bounds (x : Q) :
  (x - (1 # 2) < inject_Z (roundQ x))%Q /\ (inject_Z (roundQ x) <= x + (1 # 2))%Q.
Proof.
  unfold roundQ.
  pose proof (Qfloor_le (x + (1 # 2))) as Hle.
  pose proof (Qlt_floor (x + (1 # 2))) as Hlt.
  rewrite inject_Z_plus in Hlt. change (inject_Z 1) with 1%Q in Hlt.
  split; lra.
Qed.

Lemma roundQ_between (x : Q) (a b : Z) :
  (inject_Z a <= x)%Q -> (x <= inject_Z b)%Q -> a <= roundQ x <= b.
Proof.
  intros Ha Hb. split.
  - rewrite <- (roundQ_inject_Z a). now apply roundQ_mono.
  - rewrite <- (roundQ_inject_Z b). now apply roundQ_mono.
Qed.

Lemma driftMarket_quoted (m : Market) (r1 r2 r3 : Q) :
  let m' := driftMarket m r1 r2 r3 in
  m_ticker m' = m_ticker m /\ m_title m' = m_title m
  /\ 5 <= m_mid m' <= 95 /\ 2 <= m_spread m' /\ simQuoted m'.
Proof.
  cbv zeta. unfold simQuoted, driftMarket.
  cbn [m_ticker m_title m_mid m_spread m_yesBid m_yesAsk m_noBid m_noAsk].
  set (newMid := Qmax 5 (Qmin 95 (inject_Z (m_mid m) + (r1 - (1 # 2)) * 4))).
  set (s := Z.max 2 (roundQ (inject_Z (m_spread m) + (r2 - (1 # 2)) * 2))).
  assert (Hlo : (5 <= newMid)%Q) by apply Q.le_max_l.
  assert (Hhi : (newMid <= 95)%Q).
  { apply Q.max_lub; [vm_compute; discriminate | apply Q.le_min_l]. }
  assert (Hs : 2 <= s) by apply Z.le_max_l.
  assert (Hsq : (1 <= inject_Z s * (1 # 2))%Q).
  { rewrite Zle_Qle in Hs. change (inject_Z 2) with 2%Q in Hs. lra. }
  change (inject_Z s / 2)%Q with (inject_Z s * (1 # 2))%Q.
  clearbody newMid s.
  assert (Hmid : 5 <= roundQ newMid <= 95) by (apply roundQ_between; assumption).
  assert (Hyb : roundQ (newMid - inject_Z s * (1 # 2)) <= roundQ newMid)
    by (apply roundQ_mono; lra).
  assert (Hya : roundQ newMid <= roundQ (newMid + inject_Z s * (1 # 2)))
    by (apply roundQ_mono; lra).
  assert (Hnb : roundQ (100 - newMid - inject_Z s * (1 # 2)) <= 94).
  { rewrite <- (roundQ_inject_Z 94). apply roundQ_mono.
    change (inject_Z 94) with 94%Q. lra. }
  assert (Hna : 6 <= roundQ (100 - newMid + inject_Z s * (1 # 2))).
  { rewrite <- (roundQ_inject_Z 6). apply roundQ_mono.
    change (inject_Z 6) with 6%Q. lra. }
  assert (Hnn : roundQ (100 - newMid - inject_Z s * (1 # 2))
                <= roundQ (100 - newMid + inject_Z s * (1 # 2)))
    by (apply roundQ_mono; lra).
  repeat split; lia.
Qed.

Lemma driftSimMarkets_In (markets : list Market) (rnd : nat -> Q) (m' : Market) :
  In m' (driftSimMarkets markets rnd) ->
  exists (i : nat) m, markets !! i = Some m
    /\ m' = driftMarket m (rnd (3 * i)%nat) (rnd (3 * i + 1)%nat)
               (rnd (3 * i + 2)%nat).
Proof.
  intros Hin. apply list_elem_of_In in Hin. unfold driftSimMarkets in Hin.
  apply elem_of_lookup_imap in Hin. destruct Hin as (i & m & -> & Hm).
  now exists i, m.
Qed.

(** X19: whatever the markets and the draws, drifting keeps the number,
    order, tickers and titles of the markets and leaves every market with a
    mid from 5 to 95, a spread of at least 2, and quotes from 1 to 99 with
    yesBid <= mid <= yesAsk and noBid <= noAsk; in particular no simulated
    mid is ever 0. *)
Theorem driftSimMarkets_quoted (markets : list Market) (rnd : nat -> Q) :
  length (driftSimMarkets markets rnd) = length markets
  /\ map m_ticker (driftSimMarkets markets rnd) = map m_ticker markets
  /\ map m_title (driftSimMarkets markets rnd) = map m_title markets
  /\ Forall (fun m => 5 <= m_mid m <= 95 /\ m_mid m <> 0 /\ 2 <= m_spread m
                      /\ simQuoted m)
            (driftSimMarkets markets rnd).
Proof.
  split; [apply length_imap|]. split; [|split].
  - unfold driftSimMarkets. change (map m_ticker) with (fmap (M := list) m_ticker).
    rewrite fmap_imap. rewrite <- (imap_const m_ticker markets).
    apply imap_ext. reflexivity.
  - unfold driftSimMarkets. change (map m_title) with (fmap (M := list) m_title).
    rewrite fmap_imap. rewrite <- (imap_const m_title markets).
    apply imap_ext. reflexivity.
  - apply Forall_forall. intros m' Hin.
    apply list_elem_of_In, driftSimMarkets_In in Hin.
    destruct Hin as (i & m & _ & ->).
    destruct (driftMarket_quoted m (rnd (3 * i)%nat) (rnd (3 * i + 1)%nat)
                (rnd (3 * i + 2)%nat)) as (_ & _ & Hmid & Hs & Hq).
    repeat split; try lia; apply Hq.
Qed.

(** X20: with draws of Math.random (0 <= r < 1) a market whose mid is
    between 5 and 95 moves by at most 2 cents in one drift, and its volume
    never falls and grows by at most 100. *)
Theorem driftMarket_step (m : Market) (r1 r2 r3 : Q) :
  (0 <= r1)%Q -> (r1 < 1)%Q -> (0 <= r3)%Q -> (r3 < 1)%Q ->
  5 <= m_mid m <= 95 ->
  m_mid m - 2 <= m_mid (driftMarket m r1 r2 r3) <= m_mid m + 2
  /\ m_volume m <= m_volume (driftMarket m r1 r2 r3) <= m_volume m + 100.
Proof.
  intros H0 H1 H30 H31 [Hlo Hhi]. unfold driftMarket. cbn [m_mid m_volume].
  rewrite Zle_Qle in Hlo, Hhi.
  change (inject_Z 5) with 5%Q in Hlo. change (inject_Z 95) with 95%Q in Hhi.
  set (x := (inject_Z (m_mid m) + (r1 - (1 # 2)) * 4)%Q).
  assert (Hx : (inject_Z (m_mid m) - 2 <= x)%Q /\ (x <= inject_Z (m_mid m) + 2)%Q)
    by (unfold x; split; lra).
  destruct Hx as [Hx1 Hx2].
  assert (Hn1 : (inject_Z (m_mid m - 2) <= Qmax 5 (Qmin 95 x))%Q).
  { unfold Z.sub. rewrite inject_Z_plus. change (inject_Z (- (2))) with (- 2)%Q.
    apply Qle_trans with (Qmin 95 x); [|apply Q.le_max_r].
    apply Q.min_glb; lra. }
  assert (Hn2 : (Qmax 5 (Qmin 95 x) <= inject_Z (m_mid m + 2))%Q).
  { rewrite inject_Z_plus. change (inject_Z 2) with 2%Q.
    apply Q.max_lub; [lra|].
    apply Qle_trans with x; [apply Q.le_min_r | lra]. }
  pose proof (roundQ_between _ _ _ Hn1 Hn2).
  assert (Hv : 0 <= roundQ (r3 * 100) <= 100).
  { apply roundQ_between.
    - change (inject_Z 0) with 0%Q. lra.
    - change (inject_Z 100) with 100%Q. lra. }
  lia.
Qed.

(** X20 (witness): M50 drifted with the draws 0.9, 0.5 and 0.25. *)
Lemma driftMarket_step_witness :
  5 <= m_mid M50 <= 95
  /\ m_mid M50 - 2 <= m_mid (driftMarket M50 (9 # 10) (1 # 2) (1 # 4))
     <= m_mid M50 + 2.
Proof.
  assert (Hm : 5 <= m_mid M50 <= 95) by (split; vm_compute; discriminate).
  split; [exact Hm|].
  refine (proj1 (driftMarket_step M50 (9 # 10) (1 # 2) (1 # 4) _ _ _ _ Hm));
    vm_compute; first [reflexivity | discriminate].
Defined.

Lemma simMarket_quoted (ty title : string) (r1 r2 r3 : Q) :
  (0 <= r1)%Q -> (r1 < 1)%Q -> (0 <= r2)%Q -> (r2 < 1)%Q ->
  (0 <= r3)%Q -> (r3 < 1)%Q ->
  let m := simMarket ty title r1 r2 r3 in
  20 <= m_mid m <= 80 /\ 2 <= m_spread m <= 10
  /\ 500 <= m_volume m <= 50500 /\ simQuoted m.
Proof.
  intros H10 H11 H20 H21 H30 H31. cbv zeta. unfold simQuoted, simMarket.
  cbn [m_mid m_spread m_volume m_yesBid m_yesAsk m_noBid m_noAsk].
  change ((2 + r2 * 8) / 2)%Q with ((2 + r2 * 8) * (1 # 2))%Q.
  set (mid := (20 + r1 * 60)%Q). set (sp := (2 + r2 * 8)%Q).
  assert (Hmid : (20 <= mid)%Q /\ (mid <= 80)%Q) by (unfold mid; split; lra).
  assert (Hsp : (2 <= sp)%Q /\ (sp <= 10)%Q) by (unfold sp; split; lra).
  destruct Hmid as [Hm1 Hm2]. destruct Hsp as [Hs1 Hs2]. clearbody mid sp.
  assert (HM : 20 <= roundQ mid <= 80) by (apply roundQ_between; assumption).
  assert (HS : 2 <= roundQ sp <= 10) by (apply roundQ_between; assumption).
  assert (HV : 500 <= roundQ (500 + r3 * 50000) <= 50500).
  { apply roundQ_between.
    - change (inject_Z 500) with 500%Q. lra.
    - change (inject_Z 50500) with 50500%Q. lra. }
  assert (HA : roundQ (mid - sp * (1 # 2)) <= roundQ mid)
    by (apply roundQ_mono; lra).
  assert (HB : roundQ (100 - mid - sp * (1 # 2)) <= 79).
  { rewrite <- (roundQ_inject_Z 79). apply roundQ_mono.
    change (inject_Z 79) with 79%Q. lra. }
  assert (HC : roundQ mid <= roundQ (mid - sp * (1 # 2)) + roundQ sp).
  { destruct (roundQ_bounds (mid - sp * (1 # 2))) as [Ha _].
    destruct (roundQ_bounds sp) as [Hs _].
    destruct (roundQ_bounds mid) as [_ Hm].
    assert (H : (inject_Z (roundQ mid)
                 < inject_Z (roundQ (mid - sp * (1 # 2)) + roundQ sp + 1))%Q).
    { rewrite !inject_Z_plus. change (inject_Z 1) with 1%Q. lra. }
    rewrite <- Zlt_Qlt in H. lia. }
  repeat split; lia.
Qed.

(** X21: the simulated feed starts with eight markets whose tickers are
    HIGHTEMP-SIM ... FEDRATE-SIM in that order, all different; with draws
    of Math.random (0 <= r < 1) each has a mid from 20 to 80, a spread from
    2 to 10, a volume from 500 to 50500 and quotes from 1 to 99 with
    yesBid <= mid <= yesAsk and noBid <= noAsk. *)
Theorem generateSimMarkets_quoted (rnd : nat -> Q) :
  map m_ticker (generateSimMarkets rnd)
  = ["HIGHTEMP-SIM"; "LOWTEMP-SIM"; "RAIN-SIM"; "SP500-SIM"; "CPI-SIM";
     "NFPAY-SIM"; "BTCUSD-SIM"; "FEDRATE-SIM"]
  /\ NoDup (map m_ticker (generateSimMarkets rnd))
  /\ ((forall k, (0 <= rnd k)%Q /\ (rnd k < 1)%Q) ->
      Forall (fun m => 20 <= m_mid m <= 80 /\ 2 <= m_spread m <= 10
                       /\ 500 <= m_volume m <= 50500 /\ simQuoted m)
             (generateSimMarkets rnd)).
Proof.
  split; [reflexivity|]. split.
  - change (map m_ticker (generateSimMarkets rnd))
      with ["HIGHTEMP-SIM"; "LOWTEMP-SIM"; "RAIN-SIM"; "SP500-SIM"; "CPI-SIM";
            "NFPAY-SIM"; "BTCUSD-SIM"; "FEDRATE-SIM"].
    apply (bool_decide_unpack _). vm_compute. exact I.
  - intros Hr. apply Forall_forall. intros m Hin.
    unfold generateSimMarkets in Hin. apply elem_of_lookup_imap in Hin.
    destruct Hin as (i & [ty title] & -> & _).
    apply simMarket_quoted; apply Hr.
Qed.

(** X21 (witness): the feed generated from the constant draw 1/2. *)
Lemma generateSimMarkets_quoted_witness :
  length (generateSimMarkets noRandom) = 8%nat
  /\ Forall (fun m => 20 <= m_mid m <= 80 /\ 2 <= m_spread m <= 10
                      /\ 500 <= m_volume m <= 50500 /\ simQuoted m)
            (generateSimMarkets noRandom).
Proof.
  split; [reflexivity|].
  apply (proj2 (proj2 (generateSimMarkets_quoted noRandom))).
  intros k. split; [vm_compute; discriminate | reflexivity].
Defined.

Lemma evaluateValueStrategy_silent market params rnd :
  (0 <= rnd)%Q -> (rnd < 1)%Q ->
  m_yesBid market <= m_mid market <= m_yesAsk market ->
  8 <= threshold params ->
  evaluateValueStrategy market params rnd = [].
Proof.
  intros H0 H1 Hq Ht. apply no_elements_nil. intros sig Hin.
  pose proof (evaluateValueStrategy_edge _ _ _ _ H0 H1 Hq Hin) as He.
  apply valueSignals_In in Hin. destruct Hin as (_ & _ & _ & _ & Hth & _).
  rewrite Zle_Qle in Ht. change (inject_Z 8) with 8%Q in Ht. lra.
Qed.

Lemma generateSignals_value_silent cfg ms rnd :
  activeStrategy cfg = Value ->
  8 <= threshold (valueParams cfg) ->
  (forall k, (0 <= rnd k)%Q /\ (rnd k < 1)%Q) ->
  Forall (fun m => m_yesBid m <= m_mid m <= m_yesAsk m) ms ->
  forall k, generateSignals cfg ms rnd k = [].
Proof.
  intros Hv Ht Hr Hall. induction Hall as [|m ms Hm Hall IH]; intros k.
  - reflexivity.
  - cbn [generateSignals]. rewrite Hv. cbn [usesValue usesMM].
    rewrite (evaluateValueStrategy_silent m (valueParams cfg) (rnd k));
      [apply IH | apply Hr | apply Hr | exact Hm | exact Ht].
Qed.

(** X22: in simulation, with the value strategy alone and a threshold of 8
    or more (8 is the default), a tick on drifted markets produces no
    signal, places no order and leaves balance, positions and totalPnl as
    they were: the estimate is at most 7.5 cents from a mid that the drift
    always leaves between bid and ask. *)
Theorem sim_value_strategy_is_silent (cfg : Config) (markets : list Market)
  (drift rnd : nat -> Q) (now : string) (e : Engine) :
  activeStrategy cfg = Value ->
  8 <= threshold (valueParams cfg) ->
  (forall k, (0 <= rnd k)%Q /\ (rnd k < 1)%Q) ->
  let e' := tick cfg (driftSimMarkets markets drift) rnd now e in
  signals e' = [] /\ ordersPlaced e' = ordersPlaced e
  /\ totalSignals e' = totalSignals e
  /\ balance (portfolio e') = balance (portfolio e)
  /\ positions (portfolio e') = positions (portfolio e)
  /\ totalPnl (portfolio e') = totalPnl (portfolio e).
Proof.
  intros Hv Ht Hr. cbv zeta.
  assert (Hsig : signals (tick cfg (driftSimMarkets markets drift) rnd now e) = []).
  { rewrite signals_tick, generateSignals_value_silent; try assumption.
    - reflexivity.
    - apply Forall_forall. intros m' Hin.
      apply list_elem_of_In, driftSimMarkets_In in Hin.
      destruct Hin as (i & m & _ & ->).
      destruct (driftMarket_quoted m (drift (3 * i)%nat) (drift (3 * i + 1)%nat)
                  (drift (3 * i + 2)%nat)) as (_ & _ & _ & _ & Hq).
      unfold simQuoted in Hq. lia. }
  destruct (tick_counters cfg (driftSimMarkets markets drift) rnd now e)
    as (_ & Hts & Hp & _).
  rewrite portfolio_tick, Hsig in *. cbn in Hts, Hp.
  repeat split; try lia; reflexivity.
Qed.

(** X22 (witness): the default configuration on the drifted initial feed. *)
Lemma sim_value_strategy_is_silent_witness :
  activeStrategy defaultConfig = Value
  /\ 8 <= threshold (valueParams defaultConfig)
  /\ signals (tick defaultConfig
                (driftSimMarkets (generateSimMarkets noRandom) noRandom)
                noRandom "12:00:00" initialEngine) = [].
Proof.
  assert (Ht : 8 <= threshold (valueParams defaultConfig))
    by (vm_compute; discriminate).
  split; [reflexivity|]. split; [exact Ht|].
  apply (sim_value_strategy_is_silent defaultConfig (generateSimMarkets noRandom)
           noRandom noRandom "12:00:00" initialEngine eq_refl Ht).
  intros k. split; [vm_compute; discriminate | reflexivity].
Defined.

(** ** Price history, banner and backend address *)

Lemma recordPrice_lookup hist m hist' t l :
  recordPrice hist m = Some hist' ->
  hist' !! t = Some l ->
  (m_ticker m <> t /\ hist !! t = Some l)
  \/ (m_ticker m = t /\ (1 <= length l <= 31)%nat /\ last l = Some (m_mid m)).
Proof.
  unfold recordPrice. intros Hrec Hl.
  destruct (decide (m_ticker m = t)) as [Heq|Hne].
  - right. split; [exact Heq|]. subst t.
    destruct (hist !! m_ticker m) as [prev|] eqn:Hprev.
    + injection Hrec as <-. rewrite lookup_insert_eq in Hl. injection Hl as <-.
      pose proof (length_sliceLast_le 30 prev).
      rewrite length_app, last_snoc. cbn [length]. split; [lia | reflexivity].
    + destruct (inheritedKey (m_ticker m)); [discriminate|].
      injection Hrec as <-. rewrite lookup_insert_eq in Hl. injection Hl as <-.
      cbn. split; [lia | reflexivity].
  - left. split; [exact Hne|].
    destruct (hist !! m_ticker m) as [prev|];
      [|destruct (inheritedKey (m_ticker m)); [discriminate|]];
      injection Hrec as <-; now rewrite lookup_insert_ne in Hl.
Qed.

Lemma recordPrice_own hist m hist' t :
  recordPrice hist m = Some hist' -> is_Some (hist !! t) -> is_Some (hist' !! t).
Proof.
  unfold recordPrice. intros Hrec Hown.
  destruct (hist !! m_ticker m) as [prev|];
    [|destruct (inheritedKey (m_ticker m)); [discriminate|]];
    injection Hrec as <-;
    (destruct (decide (m_ticker m = t)) as [->|Hne];
     [rewrite lookup_insert_eq; eauto | now rewrite lookup_insert_ne]).
Qed.

(** X23: recording a snapshot into the price history goes through exactly
    when every market whose ticker is a name inherited from Object.prototype
    (constructor, toString, __proto__, ...) already has a history of its
    own; otherwise the updater throws.  When it goes through, the history
    of a ticker is either the one it had, no market of the snapshot carrying
    the ticker, or a list of 1 to 31 prices that ends with the mid of a
    market of the snapshot carrying that ticker. *)
Theorem recordPrices_lookup (updated : list Market) (hist : gmap string (list Z)) :
  (recordPrices updated hist = None
   <-> exists m, In m updated /\ inheritedKey (m_ticker m) = true
                 /\ hist !! m_ticker m = None)
  /\ forall hist' t l,
       recordPrices updated hist = Some hist' ->
       hist' !! t = Some l ->
       (~ In t (map m_ticker updated) /\ hist !! t = Some l)
       \/ ((1 <= length l <= 31)%nat
           /\ exists m, In m updated /\ m_ticker m = t
                         /\ last l = Some (m_mid m)).
Proof.
  split.
  - revert hist. induction updated as [|m ms IH]; intros hist; cbn [recordPrices].
    { split; [discriminate | intros (m & [] & _)]. }
    destruct (recordPrice hist m) as [h1|] eqn:Hrec.
    + rewrite IH. split.
      * intros (m' & Hin & Hk & Hnone). exists m'. split; [now right|].
        split; [exact Hk|].
        destruct (hist !! m_ticker m') eqn:Hown; [|reflexivity].
        destruct (recordPrice_own _ _ _ (m_ticker m') Hrec) as [x Hx]; [eauto|].
        congruence.
      * intros (m' & [<-|Hin] & Hk & Hnone).
        -- unfold recordPrice in Hrec. rewrite Hnone, Hk in Hrec. discriminate.
        -- exists m'. split; [exact Hin|]. split; [exact Hk|].
           destruct (h1 !! m_ticker m') as [l|] eqn:Hl; [|reflexivity].
           destruct (recordPrice_lookup _ _ _ _ _ Hrec Hl)
             as [[_ Hold]|(Heq & _)]; [congruence|].
           unfold recordPrice in Hrec. rewrite Heq, Hnone, Hk in Hrec.
           discriminate.
    + split; [intros _|reflexivity]. exists m. split; [now left|].
      unfold recordPrice in Hrec.
      destruct (hist !! m_ticker m); [discriminate|].
      destruct (inheritedKey (m_ticker m)); [split; reflexivity | discriminate].
  - revert hist. induction updated as [|m ms IH]; intros hist hist' t l Hrec Hl;
      cbn [recordPrices] in Hrec.
    { injection Hrec as <-. left. split; [intros [] | exact Hl]. }
    destruct (recordPrice hist m) as [h1|] eqn:Hstep; [|discriminate].
    destruct (IH _ _ _ _ Hrec Hl) as [[Hnot Hl1]|(Hlen & m' & Hin & Ht & Hlast)].
    + destruct (recordPrice_lookup _ _ _ _ _ Hstep Hl1)
        as [[Hne Hold]|(Heq & Hlen & Hlast)].
      * left. split; [|exact Hold]. cbn. intros [H|H]; [contradiction | now apply Hnot].
      * right. split; [exact Hlen|]. exists m. split; [now left|]. now split.
    + right. split; [exact Hlen|]. exists m'. split; [now right|]. now split.
Qed.

(** X23 (witness): M50 is recorded into an empty history as [50]; a market
    whose ticker is "constructor" makes the updater throw. *)
Lemma recordPrices_lookup_witness :
  recordPrices [M50] ∅ = Some {[ "RAIN-SIM" := [50] ]}
  /\ (1 <= length [50] <= 31)%nat
  /\ recordPrices [M50; marketNamed "constructor"] ∅ = None.
Proof.
  assert (Hrec : recordPrices [M50] ∅ = Some {[ "RAIN-SIM" := [50] ]})
    by reflexivity.
  assert (Hl : ({[ "RAIN-SIM" := [50] ]} : gmap string (list Z)) !! "RAIN-SIM"
               = Some [50]) by reflexivity.
  split; [exact Hrec|].
  destruct (recordPrices_lookup [M50] ∅) as [_ Hlook].
  destruct (recordPrices_lookup [M50; marketNamed "constructor"] ∅) as [[_ Hthrow] _].
  split.
  - destruct (Hlook _ "RAIN-SIM" [50] Hrec Hl) as [[_ Hn]|[Hlen _]];
      [discriminate Hn | exact Hlen].
  - apply Hthrow. exists (marketNamed "constructor").
    split; [right; left; reflexivity | split; reflexivity].
Defined.

Lemma orZ_zero (a : Z) : orZ a 0 = a.
Proof. unfold orZ. destruct (Z.eqb_spec a 0); congruence. Qed.

Lemma unrealizedPnl_singleton ms k pos :
  unrealizedPnl ms {[ k := pos ]} = unrealizedOf ms pos.
Proof.
  unfold unrealizedPnl. rewrite <- insert_empty.
  rewrite map_fold_insert_L.
  - rewrite map_fold_empty. lia.
  - intros. lia.
  - apply lookup_empty.
Qed.

(** X24: after a firing of the interval callback that leaves exactly one
    position open, the figure the banner shows as total P&L is the realized
    totalPnl plus (price - avgPrice) * count of that position, where price
    is the mid (YES) or 100 - mid (NO) of the first market of the snapshot
    with the position's ticker; when no market of the snapshot has that
    ticker, or no position is open, the banner shows totalPnl alone. *)
Theorem lastEquity_after_tick (cfg : Config) (ms : list Market) (rnd : nat -> Q)
  (now : string) (d : Dashboard) :
  let p := portfolio (d_engine (fire cfg ms rnd now d)) in
  (positions p = ∅ -> lastEquity p = totalPnl p)
  /\ (forall k pos, positions p = {[ k := pos ]} ->
        Forall (fun m => m_ticker m <> p_ticker pos) ms ->
        lastEquity p = totalPnl p)
  /\ (forall k pos before m after,
        positions p = {[ k := pos ]} ->
        ms = before ++ m :: after ->
        Forall (fun m0 => m_ticker m0 <> p_ticker pos) before ->
        m_ticker m = p_ticker pos ->
        lastEquity p
        = totalPnl p
          + (match p_side pos with YES => m_mid m | NO => 100 - m_mid m end
             - p_avgPrice pos) * p_count pos).
Proof.
  cbv zeta.
  assert (Hlast : lastEquity (portfolio (d_engine (fire cfg ms rnd now d)))
                  = totalPnl (portfolio (d_engine (fire cfg ms rnd now d)))
                    + unrealizedPnl ms
                        (positions (portfolio (d_engine (fire cfg ms rnd now d))))).
  { destruct (fire_engine cfg ms rnd now d) as (_ & -> & _).
    unfold lastEquity, updatePortfolio.
    cbn [equityCurve totalPnl positions]. rewrite last_snoc. cbn [default].
    rewrite orZ_zero. reflexivity. }
  rewrite Hlast. split; [|split].
  - intros ->. unfold unrealizedPnl. rewrite map_fold_empty. lia.
  - intros k pos -> Habsent. rewrite unrealizedPnl_singleton.
    unfold unrealizedOf. rewrite (findMarket_absent _ _ Habsent). lia.
  - intros k pos before m after -> -> Hb Hm. rewrite unrealizedPnl_singleton.
    unfold unrealizedOf. rewrite (findMarket_first _ _ _ _ Hb Hm). reflexivity.
Qed.

(** X24 (witness): holding 2 NO contracts bought at 47 cents on RAIN-SIM,
    a firing that emits no signal on the snapshot [T1; RAIN-SIM at mid 60]
    shows (100 - 60 - 47) * 2 = -14. *)
Lemma lastEquity_after_tick_witness :
  lastEquity (portfolio (d_engine (fire defaultConfig [T1; rainAt60] noRandom
                                     "12:00:05" heldNo)))
  = -14.
Proof.
  destruct (lastEquity_after_tick defaultConfig [T1; rainAt60] noRandom
              "12:00:05" heldNo) as (_ & _ & Hone).
  rewrite (Hone "RAIN-SIM-NO"
             {| p_ticker := "RAIN-SIM"; p_side := NO; p_count := 2; p_avgPrice := 47;
                p_entryTime := "12:00:00" |}
             [T1] rainAt60 []).
  - reflexivity.
  - reflexivity.
  - reflexivity.
  - constructor; [discriminate | constructor].
  - reflexivity.
Defined.

(** X25: trimming removes exactly the run of slashes at the end of the
    address: what is left is empty or does not end in a slash, and trimming
    again changes nothing.  The backend address the dashboard uses
    therefore never ends in a slash, whatever was configured. *)
Theorem getBackendUrl_no_trailing_slash (BACKEND_URL hostname : string) :
  (forall s, ~ (exists s', trimSlashes s = s' +:+ "/"))
  /\ (forall s, exists n, s = trimSlashes s +:+ slashes n)
  /\ (forall s, trimSlashes (trimSlashes s) = trimSlashes s)
  /\ ~ (exists s', getBackendUrl BACKEND_URL hostname = s' +:+ "/").
Proof.
  assert (Hno : forall s, ~ (exists s', trimSlashes s = s' +:+ "/")).
  { induction s as [|c rest IH]; intros [s' Hs'].
    - destruct s'; discriminate.
    - cbn [trimSlashes] in Hs'.
      destruct (String.eqb_spec (String c "") "/") as [Hc|Hc];
        destruct (String.eqb_spec (trimSlashes rest) "") as [Hr|Hr];
        cbn [andb] in Hs'.
      + destruct s'; discriminate.
      + destruct s' as [|c' s'']; cbn in Hs'.
        * injection Hs' as _ Hr'. contradiction.
        * injection Hs' as _ Hr'. apply IH. now exists s''.
      + destruct s' as [|c' s'']; cbn in Hs'.
        * injection Hs' as Hc' _. apply Hc. now rewrite Hc'.
        * injection Hs' as _ Hr'. apply IH. now exists s''.
      + destruct s' as [|c' s'']; cbn in Hs'.
        * injection Hs' as _ Hr'. contradiction.
        * injection Hs' as _ Hr'. apply IH. now exists s''. }
  split; [exact Hno|]. split; [|split].
  - induction s as [|c rest [n IH]]; [now exists 0%nat|].
    cbn [trimSlashes].
    destruct (String.eqb_spec (String c "") "/") as [Hc|Hc];
      destruct (String.eqb_spec (trimSlashes rest) "") as [Hr|Hr]; cbn [andb].
    + exists (S n). injection Hc as ->. rewrite Hr in IH.
      change (String.append "/" rest = String.append "/" (slashes n)).
      f_equal. exact IH.
    + exists n.
      change (String c rest = String c (trimSlashes rest +:+ slashes n)).
      f_equal. exact IH.
    + exists n.
      change (String c rest = String c (trimSlashes rest +:+ slashes n)).
      f_equal. exact IH.
    + exists n.
      change (String c rest = String c (trimSlashes rest +:+ slashes n)).
      f_equal. exact IH.
  - induction s as [|c rest IH]; [reflexivity|].
    cbn [trimSlashes].
    destruct (String.eqb (String c "") "/" && String.eqb (trimSlashes rest) "")
      eqn:Hb; [reflexivity|].
    cbn [trimSlashes]. rewrite IH, Hb. reflexivity.
  - unfold getBackendUrl.
    destruct (negb (String.eqb BACKEND_URL "")); [apply Hno|].
    destruct (String.eqb hostname "localhost"); intros [s' Hs'].
    + apply (f_equal String.list_ascii_of_string) in Hs'.
      rewrite list_ascii_of_string_app in Hs'.
      apply (f_equal last) in Hs'. rewrite last_app in Hs'. discriminate.
    + destruct s'; discriminate.
Qed.
